(** * pymodbus: the synchronous TCP client and the synchronous server example

    A shallow embedding of [pymodbus/client/tcp.py] and
    [examples/server_sync.py].

    The client talks to the operating system (sockets, [select], the clock).
    Those calls are modelled by an oracle that answers each call, and every
    call is written to a trace, so that statements such as "no byte was
    written" or "the socket was closed" are statements about the trace.
    Python values keep their shapes: [bytes] is a list of bytes, integers are
    [Z], a [float] is a binary64 float, [None]-able values are options, an
    exception is a [Raise] result.  Reads, writes, [settimeout] and the calls
    that make or connect a socket may raise, as the Python calls may.

    Log calls and the text of exception messages are left out. *)

From Stdlib Require Import String.
From Stdlib Require Import PrimFloat.
From Stdlib Require Import ZArith List Bool Lia.
From Stdlib Require Import Init.Byte.
Import ListNotations.
Open Scope Z_scope.

(** ** Python values shared by both files *)

Definition bytes := list byte.

(** [len(b)] *)
Definition len (b : bytes) : Z := Z.of_nat (length b).

(** Truth value of a [bytes] object: non-empty. *)
Definition bytes_truthy (b : bytes) : bool :=
  match b with [] => false | _ :: _ => true end.

(** [b"".join(data)] *)
Definition join (data : list bytes) : bytes := concat data.

(** A Python [float], with its sum, difference and the test [a > b]. *)
Definition float := PrimFloat.float.

Bind Scope float_scope with float.

Definition fadd (a b : float) : float := PrimFloat.add a b.

Definition fsub (a b : float) : float := PrimFloat.sub a b.

Definition fgt (a b : float) : bool := PrimFloat.ltb b a.

Arguments fadd : simpl never.
Arguments fsub : simpl never.
Arguments fgt : simpl never.

(** The exceptions the two files raise, catch or let through. *)
Inductive Exn :=
| ConnectionException
| ValueError
| OSError
| TypeError
| OverflowError
| UnicodeError
| UnboundLocalError.

Inductive Result (A : Type) :=
| Ok (a : A)
| Raise (e : Exn).
Arguments Ok {A} a.
Arguments Raise {A} e.

(** The five framer classes of the library; [ModbusSocketFramer] is the
    MBAP framer ("socket"). *)
Inductive Framer :=
| ModbusSocketFramer
| ModbusRtuFramer
| ModbusAsciiFramer
| ModbusBinaryFramer
| ModbusTlsFramer.

(** A value passed through keyword arguments. *)
Inductive PyVal :=
| VNone
| VBool (b : bool)
| VInt (n : Z)
| VStr (s : string)
| VBytes (b : bytes).

(** [**kwargs]: keyword names with their values. *)
Definition Kwargs := list (string * PyVal).

(** [key in kwargs] *)
Definition kw_in (key : string) (kwargs : Kwargs) : bool :=
  existsb (fun kv => String.eqb key (fst kv)) kwargs.

(** [host[5:]] and, in general, [s[n:]]. *)
Definition drop_prefix (n : nat) (s : string) : string :=
  substring n (String.length s - n) s.

(** ** The operating system *)

Module OS.

(** A socket object, identified by its descriptor. *)
Definition Socket := nat.

(** What [select.select([sock], [], [], timeout)] can do: report the socket
    readable, time out with nothing readable, or raise [ValueError] (Python
    does so for an invalid descriptor or a negative timeout). *)
Inductive SelectResult :=
| Ready
| NotReady
| SelectValueError.

(** The answers of the environment; the i-th call of a kind gets the i-th
    answer of that kind.  A read or a write gives its value or raises (a
    reset connection is an [OSError]); a call that makes or connects a socket
    fails when [os_error] says so, with the exception [os_exception]
    names. *)
Record Oracle := {
  clock : nat -> float;                  (* time.time() *)
  select_answer : nat -> SelectResult;   (* select.select *)
  recv_answer : nat -> Z -> Result bytes; (* sock.recv(bufsize) *)
  send_answer : nat -> bytes -> Result Z; (* sock.send(data) *)
  os_error : nat -> bool;                (* does this call fail? *)
  os_exception : nat -> Exn              (* with which exception *)
}.

Inductive Event :=
| EvTime (t : float)
| EvSetBlocking (s : Socket) (flag : bool)
| EvSelect (s : Socket) (timeout : float) (r : SelectResult)
| EvRecv (s : Socket) (bufsize : Z) (data : bytes)
| EvRecvError (s : Socket) (bufsize : Z) (e : Exn)
| EvSend (s : Socket) (data : bytes) (n : Z)
| EvSendError (s : Socket) (data : bytes) (e : Exn)
| EvClose (s : Socket)
| EvSocketUnix (r : option Socket)
| EvSetTimeout (s : Socket) (timeout : float)
| EvConnect (s : Socket) (path : string) (ok : bool)
| EvCreateConnection (host : string) (port : Z) (timeout : float)
    (source_address : option (string * Z)) (r : option Socket)
| EvGetSockName (s : Socket) (ok : bool).

(** The state of the environment: the oracle, how many answers of each
    kind were used, the next free descriptor and the trace of the calls made
    so far, newest first. *)
Record World := {
  oracle : Oracle;
  n_time : nat;
  n_select : nat;
  n_recv : nat;
  n_send : nat;
  n_os : nat;
  next_fd : nat;
  trace : list Event
}.

(** [time.time()] *)
Definition time_time (w : World) : float * World :=
  let t := clock (oracle w) (n_time w) in
  (t, {| oracle := oracle w; n_time := S (n_time w); n_select := n_select w;
         n_recv := n_recv w; n_send := n_send w; n_os := n_os w;
         next_fd := next_fd w; trace := EvTime t :: trace w |}).

(** An event that consumes no answer. *)
Definition emit (e : Event) (w : World) : World :=
  {| oracle := oracle w; n_time := n_time w; n_select := n_select w;
     n_recv := n_recv w; n_send := n_send w; n_os := n_os w;
     next_fd := next_fd w; trace := e :: trace w |}.

(** [sock.setblocking(flag)] *)
Definition setblocking (s : Socket) (flag : bool) (w : World) : World :=
  emit (EvSetBlocking s flag) w.

(** A timeout a socket refuses with [ValueError]: a negative number or a
    NaN. *)
Definition timeout_refused (t : float) : bool :=
  PrimFloat.is_nan t || PrimFloat.ltb t PrimFloat.zero.

(** [sock.settimeout(t)] *)
Definition settimeout (s : Socket) (t : float) (w : World)
  : Result unit * World :=
  (if timeout_refused t then Raise ValueError else Ok tt,
   emit (EvSetTimeout s t) w).

(** [sock.close()] *)
Definition socket_close (s : Socket) (w : World) : World :=
  emit (EvClose s) w.

(** [select.select([s], [], [], timeout)] *)
Definition select_select (s : Socket) (timeout : float) (w : World)
  : SelectResult * World :=
  let r := select_answer (oracle w) (n_select w) in
  (r, {| oracle := oracle w; n_time := n_time w; n_select := S (n_select w);
         n_recv := n_recv w; n_send := n_send w; n_os := n_os w;
         next_fd := next_fd w; trace := EvSelect s timeout r :: trace w |}).

(** [s.recv(bufsize)] *)
Definition socket_recv (s : Socket) (bufsize : Z) (w : World)
  : Result bytes * World :=
  let r := recv_answer (oracle w) (n_recv w) bufsize in
  (r, {| oracle := oracle w; n_time := n_time w; n_select := n_select w;
         n_recv := S (n_recv w); n_send := n_send w; n_os := n_os w;
         next_fd := next_fd w;
         trace := match r with
                  | Ok data => EvRecv s bufsize data
                  | Raise e => EvRecvError s bufsize e
                  end :: trace w |}).

(** [s.send(data)] *)
Definition socket_send (s : Socket) (data : bytes) (w : World)
  : Result Z * World :=
  let r := send_answer (oracle w) (n_send w) data in
  (r, {| oracle := oracle w; n_time := n_time w; n_select := n_select w;
         n_recv := n_recv w; n_send := S (n_send w); n_os := n_os w;
         next_fd := next_fd w;
         trace := match r with
                  | Ok n => EvSend s data n
                  | Raise e => EvSendError s data e
                  end :: trace w |}).

(** A call that may fail: it consumes one [os_error] answer, takes [fds]
    fresh descriptors when it succeeds, and logs [ev ok]. *)
Definition os_call (fds : nat) (ev : bool -> Event) (w : World)
  : Result unit * World :=
  let ok := negb (os_error (oracle w) (n_os w)) in
  (if ok then Ok tt else Raise (os_exception (oracle w) (n_os w)),
   {| oracle := oracle w; n_time := n_time w; n_select := n_select w;
      n_recv := n_recv w; n_send := n_send w; n_os := S (n_os w);
      next_fd := ((if ok then fds else 0) + next_fd w)%nat;
      trace := ev ok :: trace w |}).

(** [socket.socket(socket.AF_UNIX)] *)
Definition socket_unix (w : World) : Result Socket * World :=
  let s := next_fd w in
  let '(r, w) :=
    os_call 1 (fun ok => EvSocketUnix (if ok then Some s else None)) w in
  (match r with Ok _ => Ok s | Raise e => Raise e end, w).

(** [s.connect(path)] *)
Definition socket_connect (s : Socket) (path : string) (w : World)
  : Result unit * World :=
  os_call 0 (EvConnect s path) w.

(** [socket.create_connection((host, port), timeout=..., source_address=...)]:
    resolving or connecting may fail; a timeout the socket refuses makes the
    call raise [ValueError]. *)
Definition create_connection (host : string) (port : Z) (timeout : float)
  (source_address : option (string * Z)) (w : World)
  : Result Socket * World :=
  let s := next_fd w in
  let r :=
    if os_error (oracle w) (n_os w)
    then Raise (os_exception (oracle w) (n_os w))
    else if timeout_refused timeout then Raise ValueError
    else Ok s in
  (r, {| oracle := oracle w; n_time := n_time w; n_select := n_select w;
         n_recv := n_recv w; n_send := n_send w; n_os := S (n_os w);
         next_fd := (match r with Ok _ => 1 | Raise _ => 0 end
                     + next_fd w)%nat;
         trace := EvCreateConnection host port timeout source_address
                    match r with Ok s => Some s | Raise _ => None end
                  :: trace w |}).

(** [s.getsockname()], whose value only goes to the log. *)
Definition getsockname (s : Socket) (w : World) : Result unit * World :=
  os_call 0 (EvGetSockName s) w.

End OS.
Import OS.
(** ** pymodbus/client/tcp.py *)

Module tcp.

(** The base class [ModbusBaseClient] lives in [pymodbus/client/base.py].
    This file uses five things of it: its constructor, the [send] and [recv]
    hooks that the subclass calls first ([super().send(request)],
    [super().recv(size)]), the test [self.state == RETRYING] and
    [self.params.timeout].  They are the interface below; [Base] holds the
    attributes the base class owns (framer, transaction state, timeout and
    the other parameters).  The attribute [socket] belongs to the TCP client:
    the hooks do not see it. *)
Class ModbusBaseClient (Base : Type) := {
  base_init : Framer -> Kwargs -> Base;
  base_send : Base -> bytes -> Base;
  base_recv : Base -> option Z -> Base;
  retrying : Base -> bool;
  params_timeout : Base -> float
}.

(** The two calls [AsyncModbusTcpClient.__init__] can make on
    [self.new_transport]. *)
Inductive TransportSetup :=
| setup_unix (server : bool) (path : string)
| setup_tcp (server : bool) (host : string) (port : Z).

Section Client.

Context {Base : Type} `{ModbusBaseClient Base}.

Record AsyncModbusTcpClient := {
  async_base : Base;
  async_params_host : string;
  async_params_port : Z;
  async_params_source_address : option (string * Z);
  new_transport_setup : option TransportSetup
}.

Record ModbusTcpClient := {
  base : Base;
  params_host : string;
  params_port : Z;
  params_source_address : option (string * Z);
  socket : option Socket;
  use_sync : bool
}.

Definition set_socket (c : ModbusTcpClient) (s : option Socket)
  : ModbusTcpClient :=
  {| base := base c; params_host := params_host c;
     params_port := params_port c;
     params_source_address := params_source_address c;
     socket := s; use_sync := use_sync c |}.

Definition set_base (c : ModbusTcpClient) (b : Base) : ModbusTcpClient :=
  {| base := b; params_host := params_host c;
     params_port := params_port c;
     params_source_address := params_source_address c;
     socket := socket c; use_sync := use_sync c |}.

(** An argument left out is [None]; the defaults are those of the
    signature: [port=502], [framer=ModbusSocketFramer],
    [source_address=None]. *)
Definition default {A : Type} (d : A) (o : option A) : A :=
  match o with Some a => a | None => d end.

(** [AsyncModbusTcpClient.__init__] *)
Definition AsyncModbusTcpClient_init (host : string) (port : option Z)
  (framer : option Framer) (source_address : option (string * Z))
  (kwargs : Kwargs) : AsyncModbusTcpClient :=
  let port := default 502 port in
  let framer := default ModbusSocketFramer framer in
  {| async_base := base_init framer kwargs;
     async_params_host := host;
     async_params_port := port;
     async_params_source_address := source_address;
     new_transport_setup :=
       if kw_in "internal_no_setup" kwargs then None
       else if prefix "unix:" host
            then Some (setup_unix false (drop_prefix 5 host))
            else Some (setup_tcp false host port) |}.

(** [ModbusTcpClient.__init__] *)
Definition ModbusTcpClient_init (host : string) (port : option Z)
  (framer : option Framer) (source_address : option (string * Z))
  (kwargs : Kwargs) : ModbusTcpClient :=
  let port := default 502 port in
  let framer := default ModbusSocketFramer framer in
  {| base := base_init framer kwargs;
     params_host := host;
     params_port := port;
     params_source_address := source_address;
     socket := None;
     use_sync := true |}.

(** The property [connected]: [self.socket is not None]. *)
Definition connected (c : ModbusTcpClient) : bool :=
  match socket c with Some _ => true | None => false end.

(** [close]: [if self.socket: self.socket.close()], then
    [self.socket = None].  A socket object is always true. *)
Definition close (c : ModbusTcpClient) (w : World) : ModbusTcpClient * World :=
  let w := match socket c with
           | Some s => socket_close s w
           | None => w
           end in
  (set_socket c None, w).

(** The [try] block of [connect]. *)
Definition connect_try (c : ModbusTcpClient) (w : World)
  : Result unit * ModbusTcpClient * World :=
  if prefix "unix:" (params_host c) then
    match socket_unix w with
    | (Raise e, w) => (Raise e, c, w)
    | (Ok s, w) =>
        let c := set_socket c (Some s) in
        match settimeout s (params_timeout (base c)) w with
        | (Raise e, w) => (Raise e, c, w)
        | (Ok _, w) =>
            match socket_connect s (drop_prefix 5 (params_host c)) w with
            | (Raise e, w) => (Raise e, c, w)
            | (Ok _, w) => let '(r, w) := getsockname s w in (r, c, w)
            end
        end
    end
  else
    match create_connection (params_host c) (params_port c)
            (params_timeout (base c)) (params_source_address c) w with
    | (Raise e, w) => (Raise e, c, w)
    | (Ok s, w) =>
        let c := set_socket c (Some s) in
        let '(r, w) := getsockname s w in (r, c, w)
    end.

(** [connect]: [except OSError] closes the client; any other exception of
    the [try] block goes through. *)
Definition connect (c : ModbusTcpClient) (w : World)
  : Result bool * ModbusTcpClient * World :=
  match socket c with
  | Some _ => (Ok true, c, w)
  | None =>
      match connect_try c w with
      | (Raise OSError, c, w) =>
          let '(c, w) := close c w in (Ok (connected c), c, w)
      | (Raise e, c, w) => (Raise e, c, w)
      | (Ok _, c, w) => (Ok (connected c), c, w)
      end
  end.

(** [_check_read_buffer]; [select] on [None] is a [TypeError]. *)
Definition _check_read_buffer (c : ModbusTcpClient) (w : World)
  : Result (option bytes) * World :=
  let '(time_, w) := time_time w in
  let end_ := fadd time_ (params_timeout (base c)) in
  match socket c with
  | None => (Raise TypeError, w)
  | Some s =>
      let '(ready, w) := select_select s (fsub end_ time_) w in
      match ready with
      | SelectValueError => (Raise ValueError, w)
      | Ready =>
          match socket_recv s 1024 w with
          | (Ok data, w) => (Ok (Some data), w)
          | (Raise e, w) => (Raise e, w)
          end
      | NotReady => (Ok None, w)
      end
  end.

(** [super().send(request)] and [super().recv(size)]: the hooks of the base
    class work on the attributes the base class owns. *)
Definition super_send (c : ModbusTcpClient) (request : bytes)
  : ModbusTcpClient :=
  set_base c (base_send (base c) request).

Definition super_recv (c : ModbusTcpClient) (size : option Z)
  : ModbusTcpClient :=
  set_base c (base_recv (base c) size).

(** [send]; it returns an [int] (what [socket.send] returned, or 0) or the
    [bytes] found in the read buffer; what [socket.send] raises goes
    through. *)
Definition send (c : ModbusTcpClient) (request : bytes) (w : World)
  : Result PyVal * ModbusTcpClient * World :=
  let c := super_send c request in
  match socket c with
  | None => (Raise ConnectionException, c, w)
  | Some s =>
      let write (w : World) :=
        if bytes_truthy request
        then match socket_send s request w with
             | (Ok n, w) => (Ok (VInt n), c, w)
             | (Raise e, w) => (Raise e, c, w)
             end
        else (Ok (VInt 0), c, w) in
      if retrying (base c) then
        match _check_read_buffer c w with
        | (Raise e, w) => (Raise e, c, w)
        | (Ok (Some data), w) =>
            if bytes_truthy data then (Ok (VBytes data), c, w) else write w
        | (Ok None, w) => write w
        end
      else write w
  end.

(** Truth value of the argument [size]: an [int] other than 0. *)
Definition size_truthy (size : option Z) : bool :=
  match size with
  | Some n => negb (n =? 0)
  | None => false
  end.

(** [_handle_abrupt_socket_close] *)
Definition _handle_abrupt_socket_close (c : ModbusTcpClient)
  (size : option Z) (data : list bytes) (duration : float) (w : World)
  : Result bytes * ModbusTcpClient * World :=
  let '(c, w) := close c w in
  match data with
  | _ :: _ => (Ok (join data), c, w)
  | [] => (Raise ConnectionException, c, w)
  end.

(** The [while recv_size > 0] loop of [recv].  [s] is [self.socket], which
    the loop does not assign.  What [socket.recv] raises goes through.
    [None] means that [fuel] iterations did not end the loop. *)
Fixpoint recv_loop (fuel : nat) (c : ModbusTcpClient) (s : Socket)
  (size : option Z) (recv_size : Z) (data : list bytes) (data_length : Z)
  (time_ end_ : float) (w : World)
  : option (Result bytes * ModbusTcpClient * World) :=
  if recv_size <=? 0 then Some (Ok (join data), c, w) else
  match fuel with
  | O => None
  | S fuel =>
      let closed (w : World) :=
        let '(now, w) := time_time w in
        Some (_handle_abrupt_socket_close c size data (fsub now time_) w) in
      let rest (data : list bytes) (data_length : Z) (w : World) :=
        let '(time_, w) := time_time w in
        let recv_size :=
          if size_truthy size then default 0 size - data_length
          else recv_size in
        if fgt time_ end_ then Some (Ok (join data), c, w)
        else recv_loop fuel c s size recv_size data data_length time_ end_ w in
      let '(ready, w) := select_select s (fsub end_ time_) w in
      match ready with
      | SelectValueError => closed w
      | Ready =>
          match socket_recv s recv_size w with
          | (Raise e, w) => Some (Raise e, c, w)
          | (Ok [], w) => closed w
          | (Ok recv_data, w) =>
              rest (data ++ [recv_data]) (data_length + len recv_data) w
          end
      | NotReady => rest data data_length w
      end
  end.

(** [recv] *)
Definition recv (fuel : nat) (c : ModbusTcpClient) (size : option Z)
  (w : World) : option (Result bytes * ModbusTcpClient * World) :=
  let c := super_recv c size in
  match socket c with
  | None => Some (Raise ConnectionException, c, w)
  | Some s =>
      let w := setblocking s false w in
      let timeout := params_timeout (base c) in
      let recv_size := match size with None => 4096 | Some n => n end in
      let '(time_, w) := time_time w in
      let end_ := fadd time_ timeout in
      recv_loop fuel c s size recv_size [] 0 time_ end_ w
  end.

(** [is_socket_open] *)
Definition is_socket_open (c : ModbusTcpClient) : bool :=
  match socket c with Some _ => true | None => false end.

End Client.

End tcp.

(** ** examples/server_sync.py *)

Module server_sync.

(** Truth value of a Python value, as [if args.port] takes it. *)
Definition truthy (v : PyVal) : bool :=
  match v with
  | VNone => false
  | VBool b => b
  | VInt n => negb (n =? 0)
  | VStr s => negb (String.eqb s "")
  | VBytes b => bytes_truthy b
  end.

Section Server.

(** The datastore and the identity block are passed through untouched;
    [helper.get_certificate] is a function of [examples/helper.py]. *)
Variables Datastore Identity : Type.
Variable get_certificate : string -> string.

(** The attributes of [args] that [run_sync_server] reads. *)
Record Args := {
  comm : string;
  framer : Framer;
  port : PyVal;
  baudrate : PyVal;
  context : Datastore;
  identity : Identity
}.

(** The call that starts the server, with its keyword arguments. *)
Inductive ServerCall :=
| StartTcpServer (context : Datastore) (identity : Identity)
    (address : option (string * PyVal)) (framer : Framer)
    (allow_reuse_address : bool)
| StartUdpServer (context : Datastore) (identity : Identity)
    (address : option (string * PyVal)) (framer : Framer)
| StartSerialServer (context : Datastore) (identity : Identity)
    (port : PyVal) (framer : Framer) (baudrate : PyVal)
| StartTlsServer (context : Datastore) (host : string) (identity : Identity)
    (address : option (string * PyVal)) (framer : Framer)
    (allow_reuse_address : bool) (certfile keyfile : string).

(** [run_sync_server]: the result is the server call it makes; when no
    branch is taken, [return server] reads an unbound local. *)
Definition run_sync_server (args : Args) : Result ServerCall :=
  if String.eqb (comm args) "tcp" then
    let address :=
      if truthy (port args) then Some (""%string, port args) else None in
    Ok (StartTcpServer (context args) (identity args) address (framer args)
          true)
  else if String.eqb (comm args) "udp" then
    let address :=
      if truthy (port args) then Some ("127.0.0.1"%string, port args)
      else None in
    Ok (StartUdpServer (context args) (identity args) address (framer args))
  else if String.eqb (comm args) "serial" then
    Ok (StartSerialServer (context args) (identity args) (port args)
          (framer args) (baudrate args))
  else if String.eqb (comm args) "tls" then
    let address :=
      if truthy (port args) then Some (""%string, port args) else None in
    Ok (StartTlsServer (context args) "localhost" (identity args) address
          (framer args) true (get_certificate "crt") (get_certificate "key"))
  else Raise UnboundLocalError.

(** The framer a server call was given, and the transport it serves. *)
Definition call_framer (call : ServerCall) : Framer :=
  match call with
  | StartTcpServer _ _ _ f _ => f
  | StartUdpServer _ _ _ f => f
  | StartSerialServer _ _ _ f _ => f
  | StartTlsServer _ _ _ _ f _ _ _ => f
  end.

Definition call_comm (call : ServerCall) : string :=
  match call with
  | StartTcpServer _ _ _ _ _ => "tcp"
  | StartUdpServer _ _ _ _ => "udp"
  | StartSerialServer _ _ _ _ _ => "serial"
  | StartTlsServer _ _ _ _ _ _ _ _ => "tls"
  end.

(** The datastore, the identity block and the listen address ([None] for
    the serial server, which has none) a server call was given. *)
Definition call_context (call : ServerCall) : Datastore :=
  match call with
  | StartTcpServer c _ _ _ _ => c
  | StartUdpServer c _ _ _ => c
  | StartSerialServer c _ _ _ _ => c
  | StartTlsServer c _ _ _ _ _ _ _ => c
  end.

Definition call_identity (call : ServerCall) : Identity :=
  match call with
  | StartTcpServer _ i _ _ _ => i
  | StartUdpServer _ i _ _ => i
  | StartSerialServer _ i _ _ _ => i
  | StartTlsServer _ _ i _ _ _ _ _ => i
  end.

Definition call_address (call : ServerCall)
  : option (option (string * PyVal)) :=
  match call with
  | StartTcpServer _ _ a _ _ => Some a
  | StartUdpServer _ _ a _ => Some a
  | StartSerialServer _ _ _ _ _ => None
  | StartTlsServer _ _ _ a _ _ _ _ => Some a
  end.

(** [args] with another [--framer]. *)
Definition with_framer (args : Args) (f : Framer) : Args :=
  {| comm := comm args; framer := f; port := port args;
     baudrate := baudrate args; context := context args;
     identity := identity args |}.

(** A configuration is rejected when no server is started. *)
Definition rejected (r : Result ServerCall) : bool :=
  match r with
  | Ok _ => false
  | Raise _ => true
  end.

End Server.

(** Modelled from the spec: the source has no table of framer/transport
    pairs.  The spec gives MBAP ("socket") framing for TCP, the TLS framing
    for TLS and RTU, ASCII and Binary for serial lines; it names no framing
    for UDP, so every framer passes there. *)
Definition sensible_pair (comm : string) (framer : Framer) : bool :=
  if String.eqb comm "tcp" then
    match framer with ModbusSocketFramer => true | _ => false end
  else if String.eqb comm "tls" then
    match framer with ModbusTlsFramer => true | _ => false end
  else if String.eqb comm "serial" then
    match framer with
    | ModbusRtuFramer | ModbusAsciiFramer | ModbusBinaryFramer => true
    | _ => false
    end
  else true.

End server_sync.

Import tcp.

(** ** Reading the trace *)

(** The bytes the socket delivered, in the order of the calls (the trace is
    newest first). *)
Fixpoint received (tr : list Event) : bytes :=
  match tr with
  | [] => []
  | EvRecv _ _ data :: older => received older ++ data
  | _ :: older => received older
  end.

(** The requests handed to [socket.send], newest first, whether the call
    returned or raised. *)
Fixpoint sent (tr : list Event) : list bytes :=
  match tr with
  | [] => []
  | EvSend _ data _ :: older => data :: sent older
  | EvSendError _ data _ :: older => data :: sent older
  | _ :: older => sent older
  end.

(** The remote end closed the connection: a read gave the empty chunk, or
    [select] found the descriptor unusable. *)
Definition is_close_signal (e : Event) : bool :=
  match e with
  | EvRecv _ _ [] => true
  | EvSelect _ _ SelectValueError => true
  | _ => false
  end.

Definition is_empty_read (e : Event) : bool :=
  match e with
  | EvRecv _ _ [] => true
  | _ => false
  end.

(** A read raised. *)
Definition is_read_error (e : Event) : bool :=
  match e with
  | EvRecvError _ _ _ => true
  | _ => false
  end.

(** With [n] bytes wanted, every read asks for what is still missing: [n]
    minus the bytes delivered before it. *)
Fixpoint asks_remaining (n : Z) (tr : list Event) : Prop :=
  match tr with
  | [] => True
  | EvRecv _ bufsize _ :: older =>
      bufsize = n - len (received older) /\ 0 < bufsize /\
      asks_remaining n older
  | _ :: older => asks_remaining n older
  end.

(** With [n] bytes wanted, every [select] is made while bytes are missing:
    once [n] bytes were delivered the loop makes no further call. *)
Fixpoint selects_while_missing (n : Z) (tr : list Event) : Prop :=
  match tr with
  | [] => True
  | EvSelect _ _ _ :: older =>
      len (received older) < n /\ selects_while_missing n older
  | _ :: older => selects_while_missing n older
  end.

(** Every [select] waits until [deadline] at most: its timeout is the
    deadline minus the clock reading taken just before. *)
Fixpoint selects_until (deadline : float) (tr : list Event) : Prop :=
  match tr with
  | [] => True
  | EvSelect _ timeout _ :: older =>
      match older with
      | EvTime t :: _ => timeout = fsub deadline t
      | _ => False
      end /\ selects_until deadline older
  | _ :: older => selects_until deadline older
  end.

(** Every [select] follows a clock reading that is not past [deadline]. *)
Fixpoint selects_in_time (deadline : float) (tr : list Event) : Prop :=
  match tr with
  | [] => True
  | EvSelect _ _ _ :: older =>
      match older with
      | EvTime t :: _ => fgt t deadline = false
      | _ => False
      end /\ selects_in_time deadline older
  | _ :: older => selects_in_time deadline older
  end.

(** The socket answers a read of [bufsize] bytes with at most [bufsize]
    bytes. *)
Definition recv_within_bufsize (o : Oracle) : Prop :=
  forall i bufsize data,
    0 < bufsize -> recv_answer o i bufsize = Ok data -> len data <= bufsize.

(** ** A base class for the worked examples

    Its hooks leave the attributes as they are; the transaction state and the
    timeout are what the example says. *)
Record ExampleBase := {
  ex_framer : Framer;
  ex_kwargs : Kwargs;
  ex_retrying : bool;
  ex_timeout : float
}.

#[export] Instance example_base : ModbusBaseClient ExampleBase := {|
  base_init f kw :=
    {| ex_framer := f; ex_kwargs := kw; ex_retrying := false;
       ex_timeout := 3000%float |};
  base_send b _ := b;
  base_recv b _ := b;
  retrying := ex_retrying;
  params_timeout := ex_timeout
|}.

(** An oracle given by finite scripts: past the end of a script the clock
    stays at [late], [select] reports nothing readable, reads are empty and
    no call fails; a read gives at most the bytes asked for; writes take the
    whole request; a failing call raises [OSError]. *)
Definition scripted (times : list float) (late : float)
  (selects : list SelectResult) (reads : list (Result bytes))
  (failures : list bool) : Oracle :=
  {| clock i := nth i times late;
     select_answer i := nth i selects NotReady;
     recv_answer i bufsize :=
       match nth i reads (Ok []) with
       | Ok data => Ok (firstn (Z.to_nat bufsize) data)
       | Raise e => Raise e
       end;
     send_answer i data := Ok (len data);
     os_error i := nth i failures false;
     os_exception i := OSError |}.

Definition start (o : Oracle) : World :=
  {| oracle := o; n_time := 0; n_select := 0; n_recv := 0; n_send := 0;
     n_os := 0; next_fd := 3; trace := [] |}.

(** A client of the example base class, connected on descriptor [s] or not
    connected. *)
Definition example_client (s : option Socket) (is_retrying : bool)
  : ModbusTcpClient :=
  {| base := {| ex_framer := ModbusSocketFramer; ex_kwargs := [];
                ex_retrying := is_retrying; ex_timeout := 3000%float |};
     params_host := "localhost"; params_port := 502;
     params_source_address := None; socket := s; use_sync := true |}.

(** The peer sends two bytes and closes the connection. *)
Definition eof_oracle : Oracle :=
  scripted [0; 10; 20]%float 30%float [Ready; Ready]
    [Ok [x01; x02]; Ok []] [].

(** The peer sends three of five bytes and falls silent; the fourth clock
    reading is past the deadline of 3000. *)
Definition slow_oracle : Oracle :=
  scripted [0; 10; 20; 4000]%float 5000%float [Ready; Ready; NotReady]
    [Ok [x01; x02]; Ok [x03]] [].

(** Three bytes are waiting in the socket. *)
Definition waiting_oracle : Oracle :=
  scripted [0; 10]%float 20%float [Ready] [Ok [x01; x02; x03]] [].


(** A serial line with the TLS framer. *)
Definition serial_tls_args : server_sync.Args unit unit :=
  {| server_sync.comm := "serial";
     server_sync.framer := ModbusTlsFramer;
     server_sync.port := VStr "/dev/ttyUSB0";
     server_sync.baudrate := VInt 9600;
     server_sync.context := tt;
     server_sync.identity := tt |}.

(** The sockets a stretch of the trace opened, and the sockets it closed,
    newest first. *)
Fixpoint opened (tr : list Event) : list Socket :=
  match tr with
  | [] => []
  | EvSocketUnix (Some s) :: older => s :: opened older
  | EvCreateConnection _ _ _ _ (Some s) :: older => s :: opened older
  | _ :: older => opened older
  end.

Fixpoint closed_sockets (tr : list Event) : list Socket :=
  match tr with
  | [] => []
  | EvClose s :: older => s :: closed_sockets older
  | _ :: older => closed_sockets older
  end.

(** The calls [recv] may make on socket [s]: reading the clock, switching
    the socket to non-blocking, [select], a read of a positive number of
    bytes (4096 when no size was given) and [close]. *)
Definition recv_call (s : Socket) (size : option Z) (e : Event) : Prop :=
  match e with
  | EvTime _ => True
  | EvSetBlocking s' flag => s' = s /\ flag = false
  | EvSelect s' _ _ => s' = s
  | EvRecv s' bufsize _ =>
      s' = s /\ 0 < bufsize /\ (size = None -> bufsize = 4096)
  | EvRecvError s' bufsize _ =>
      s' = s /\ 0 < bufsize /\ (size = None -> bufsize = 4096)
  | EvClose s' => s' = s
  | _ => False
  end.

(** A client of the example base class for the unix domain socket
    [/run/modbus.sock], not connected. *)
Definition example_unix_client : ModbusTcpClient :=
  {| base := {| ex_framer := ModbusSocketFramer; ex_kwargs := [];
                ex_retrying := false; ex_timeout := 3000%float |};
     params_host := "unix:/run/modbus.sock"; params_port := 502;
     params_source_address := None; socket := None; use_sync := true |}.


(** No call fails. *)
Definition willing_oracle : Oracle :=
  scripted [] 0%float [] [] [].

(** The socket is made, and connecting it fails. *)
Definition unreachable_oracle : Oracle :=
  scripted [] 0%float [] [] [false; true].

(** [select] raises [ValueError]. *)
Definition broken_oracle : Oracle :=
  scripted [0; 10]%float 20%float [SelectValueError] [] [].

(** ** The hooks of the library's base class

    [pymodbus/client/base.py] is not among the files modelled here.  Its
    [send] sets the transaction state to [SENDING] unless a retry is in
    progress, and its [recv] does nothing; this instance has these hooks. *)
Inductive ModbusTransactionState :=
| IDLE
| SENDING
| WAITING_FOR_REPLY
| RETRYING.

Record LibraryBase := {
  lib_framer : Framer;
  lib_kwargs : Kwargs;
  lib_state : ModbusTransactionState;
  lib_timeout : float
}.

Definition lib_retrying (b : LibraryBase) : bool :=
  match lib_state b with RETRYING => true | _ => false end.

#[export] Instance library_base : ModbusBaseClient LibraryBase := {|
  base_init f kw :=
    {| lib_framer := f; lib_kwargs := kw; lib_state := IDLE;
       lib_timeout := 3%float |};
  base_send b _ :=
    if lib_retrying b then b
    else {| lib_framer := lib_framer b; lib_kwargs := lib_kwargs b;
            lib_state := SENDING; lib_timeout := lib_timeout b |};
  base_recv b _ := b;
  retrying := lib_retrying;
  params_timeout := lib_timeout
|}.

(** A client of the library's base class, just built. *)
Definition library_client : ModbusTcpClient :=
  ModbusTcpClient_init (Base := LibraryBase) "localhost" None None None [].

(** A TCP server on the default port. *)
Definition tcp_default_port_args : server_sync.Args unit unit :=
  {| server_sync.comm := "tcp";
     server_sync.framer := ModbusSocketFramer;
     server_sync.port := VInt 0;
     server_sync.baudrate := VNone;
     server_sync.context := tt;
     server_sync.identity := tt |}.


(** ** The claims, as formal statements that the code refutes *)

(** "For every send call made while a retry is in progress on an open
    connection, the request bytes are written to the socket again." *)
Definition retry_always_retransmits : Prop :=
  forall (Base : Type) (B : ModbusBaseClient Base)
         (c : ModbusTcpClient) (request : bytes) (w : World) (s : Socket),
    socket c = Some s ->
    retrying (base (super_send c request)) = true ->
    request <> [] ->
    sent (trace (snd (send c request w))) = request :: sent (trace w).

(** "For every client whose socket is closed, send and recv raise without
    changing the client's state." *)
Definition closed_client_unchanged : Prop :=
  forall (Base : Type) (B : ModbusBaseClient Base)
         (c : ModbusTcpClient) (request : bytes) (size : option Z)
         (fuel : nat) (w : World),
    socket c = None ->
    snd (fst (send c request w)) = c /\
    forall r c' w', recv fuel c size w = Some (r, c', w') -> c' = c.


(** "run_sync_server rejects nonsensical framer/transport pairs." *)
Definition nonsensical_pairs_rejected : Prop :=
  forall (Datastore Identity : Type) (get_certificate : string -> string)
         (args : server_sync.Args Datastore Identity),
    server_sync.sensible_pair (server_sync.comm _ _ args)
      (server_sync.framer _ _ args) = false ->
    server_sync.rejected _ _
      (server_sync.run_sync_server _ _ get_certificate args) = true.

(** ** Properties of the TCP client *)

Section ClientProperties.

Context {Base : Type} `{ModbusBaseClient Base}.

Implicit Types (c : @ModbusTcpClient Base) (w : World) (s : Socket).

Lemma set_socket_same c : set_socket c (socket c) = c.
Proof. destruct c; reflexivity. Qed.

Lemma socket_super_send c request : socket (super_send c request) = socket c.
Proof. reflexivity. Qed.

Lemma socket_super_recv c size : socket (super_recv c size) = socket c.
Proof. reflexivity. Qed.

(** C6: [is_socket_open] and [connected] say whether a socket is held; after
    [close] both are false; [close] on a closed client changes nothing, and
    closing twice is closing once. *)
Theorem close_makes_not_open c w :
  is_socket_open c = connected c /\
  (is_socket_open c = true <-> exists s, socket c = Some s) /\
  is_socket_open (fst (close c w)) = false /\
  connected (fst (close c w)) = false /\
  (socket c = None -> close c w = (c, w)) /\
  close (fst (close c w)) (snd (close c w)) = close c w.
Proof.
  repeat split; try reflexivity.
  - unfold is_socket_open. destruct (socket c) as [s|]; [eauto | discriminate].
  - intros [s Hs]. unfold is_socket_open. now rewrite Hs.
  - intros Hnone. unfold close. rewrite Hnone.
    rewrite <- Hnone. now rewrite set_socket_same.
Qed.

(** C7: built without a framer argument, both clients hand the socket (MBAP)
    framer to the base class. *)
Theorem default_framer_is_socket_framer
  (host : string) (port : option Z) (source_address : option (string * Z))
  (kwargs : Kwargs) :
  base (ModbusTcpClient_init host port None source_address kwargs)
    = base_init ModbusSocketFramer kwargs /\
  async_base (AsyncModbusTcpClient_init host port None source_address kwargs)
    = base_init ModbusSocketFramer kwargs.
Proof. split; reflexivity. Qed.

(** C8, amended: with no socket held, [send] and [recv] raise
    [ConnectionException]; the world is as it was (nothing was written, read
    or closed), and the client is as the hook of the base class left it:
    still without socket, and equal to the client before the call once the
    attributes of the base class are put back. *)
Theorem closed_client_raises c (request : bytes) (size : option Z)
  (fuel : nat) w :
  socket c = None ->
  send c request w = (Raise ConnectionException, super_send c request, w) /\
  recv fuel c size w
    = Some (Raise ConnectionException, super_recv c size, w) /\
  socket (super_send c request) = None /\
  socket (super_recv c size) = None /\
  set_base (super_send c request) (base c) = c /\
  set_base (super_recv c size) (base c) = c.
Proof.
  intros Hnone. unfold send, recv.
  rewrite socket_super_send, socket_super_recv, Hnone.
  repeat split; destruct c; reflexivity.
Qed.

(** What [connect] returns is whether a socket is held afterwards. *)
Lemma connect_returns_connected c w (b : bool) c' w' :
  connect c w = (Ok b, c', w') -> b = connected c'.
Proof.
  unfold connect. destruct (socket c) as [s|] eqn:Hs.
  - intros [= <- <- <-]. unfold connected. now rewrite Hs.
  - destruct (connect_try c w) as [[[u|e] c1] w1];
      [|destruct e]; unfold close; cbn; try discriminate;
      now intros [= <- <- <-].
Qed.


(** The read-buffer check writes nothing. *)
Lemma check_read_buffer_sent c w r w1 :
  _check_read_buffer c w = (r, w1) -> sent (trace w1) = sent (trace w).
Proof.
  unfold _check_read_buffer. cbn.
  destruct (socket c) as [s|]; cbn.
  - destruct (select_answer (oracle w) (n_select w)); cbn;
      try destruct (recv_answer (oracle w) (n_recv w) 1024); cbn;
      intros [= _ <-]; reflexivity.
  - intros [= _ <-]. reflexivity.
Qed.


(** C3, amended: while a retry is in progress on an open connection, [send]
    first looks into the read buffer; data found there is returned and
    nothing is written; when nothing is found a non-empty request is written
    again, once. *)
Theorem send_while_retrying c (request : bytes) w w1 s (d : option bytes) :
  socket c = Some s ->
  retrying (base (super_send c request)) = true ->
  _check_read_buffer (super_send c request) w = (Ok d, w1) ->
  match d with
  | Some (b :: data) =>
      send c request w = (Ok (VBytes (b :: data)), super_send c request, w1)
      /\ sent (trace (snd (send c request w))) = sent (trace w)
  | _ =>
      request <> [] ->
      sent (trace (snd (send c request w))) = request :: sent (trace w)
  end.
Proof.
  intros Hs Hr Hchk. pose proof (check_read_buffer_sent _ _ _ _ Hchk) as Hsent.
  unfold send. rewrite socket_super_send, Hs, Hr, Hchk.
  destruct d as [[|b data]|]; cbn.
  - intros Hreq. destruct request as [|b rest]; [congruence|]. cbn.
    destruct (send_answer (oracle w1) (n_send w1) (b :: rest)); cbn;
      now rewrite Hsent.
  - auto.
  - intros Hreq. destruct request as [|b rest]; [congruence|]. cbn.
    destruct (send_answer (oracle w1) (n_send w1) (b :: rest)); cbn;
      now rewrite Hsent.
Qed.

(** *** The read loop *)

Lemma len_app (a b : bytes) : len (a ++ b) = len a + len b.
Proof. unfold len. rewrite length_app. lia. Qed.

Lemma join_snoc (data : list bytes) (d : bytes) :
  join (data ++ [d]) = join data ++ d.
Proof. unfold join. rewrite concat_app. cbn. now rewrite app_nil_r. Qed.

Lemma join_nil_iff (data : list bytes) :
  Forall (fun d => d <> []) data -> (join data = [] <-> data = []).
Proof.
  intros Hne. split; [|now intros ->].
  destruct Hne as [|d data Hd _]; [reflexivity|].
  cbn. destruct d; [congruence | discriminate].
Qed.

Lemma recv_loop_outcome (fuel : nat) :
  forall c s size recv_size data data_length time_ end_ w old acc r c' w',
    recv_loop fuel c s size recv_size data data_length time_ end_ w
      = Some (r, c', w') ->
    socket c = Some s ->
    trace w = (EvTime time_ :: acc) ++ old ->
    Forall (fun d => d <> []) data ->
    join data = received (EvTime time_ :: acc) ->
    selects_until end_ (EvTime time_ :: acc) ->
    existsb is_close_signal (EvTime time_ :: acc) = false ->
    existsb is_read_error (EvTime time_ :: acc) = false ->
    exists new,
      trace w' = new ++ old /\ selects_until end_ new /\
      ((r = Ok (received new) /\ c' = c /\
        existsb is_close_signal new = false /\
        existsb is_read_error new = false) \/
       (c' = set_socket c None /\ (exists older, new = EvClose s :: older) /\
        existsb is_close_signal new = true /\
        r = match received new with
            | [] => Raise ConnectionException
            | _ :: _ => Ok (received new)
            end) \/
       (exists e, r = Raise e /\ c' = c /\
                  existsb is_close_signal new = false /\
                  existsb is_read_error new = true)).
Proof.
  induction fuel as [|fuel IH];
    intros * Hrun Hs Htr Hne Hjoin Hsel Hsig Herr;
    cbn in Hrun; destruct (recv_size <=? 0) eqn:Hsize.
  - injection Hrun as <- <- <-. exists (EvTime time_ :: acc).
    repeat split; auto. left. rewrite <- Hjoin. auto.
  - discriminate.
  - injection Hrun as <- <- <-. exists (EvTime time_ :: acc).
    repeat split; auto. left. rewrite <- Hjoin. auto.
  - rewrite Hs in Hrun.
    destruct (select_answer (oracle w) (n_select w)) eqn:Hanswer.
    + (* readable *)
      destruct (recv_answer (oracle w) (n_recv w) recv_size)
        as [[|b chunk]|e] eqn:Hchunk.
      * (* the empty chunk *)
        exists (EvClose s :: EvTime (clock (oracle w) (n_time w))
                  :: EvRecv s recv_size [] :: EvSelect s (fsub end_ time_) Ready
                  :: EvTime time_ :: acc).
        assert (Hrecv : received (EvTime time_ :: acc) ++ [] = join data)
          by now rewrite app_nil_r.
        destruct data as [|d0 data0]; injection Hrun as <- <- <-;
          cbn [trace socket_close emit]; rewrite Htr;
          (split; [reflexivity|]); (split; [cbn; auto|]); right; left;
          (split; [reflexivity|]); (split; [eauto|]); (split; [reflexivity|]);
          cbn [received]; cbn [received] in Hrecv; rewrite Hrecv.
        -- reflexivity.
        -- change (d0 ++ join data0) with (join (d0 :: data0)).
           destruct (join (d0 :: data0)) eqn:Hj; [|reflexivity].
           apply join_nil_iff in Hj; [discriminate | assumption].
      * (* a chunk with data *)
        destruct (fgt (clock (oracle w) (n_time w)) end_) eqn:Hlate.
        -- injection Hrun as <- <- <-.
           exists (EvTime (clock (oracle w) (n_time w))
                     :: EvRecv s recv_size (b :: chunk)
                     :: EvSelect s (fsub end_ time_) Ready
                     :: EvTime time_ :: acc).
           cbn [trace]. rewrite Htr.
           split; [reflexivity|]. split; [cbn; auto|]. left.
           split; [|split; [reflexivity|split; [exact Hsig | exact Herr]]].
           rewrite join_snoc, Hjoin. reflexivity.
        -- eapply (IH _ _ _ _ _ _ _ _ _ old
                     (EvRecv s recv_size (b :: chunk)
                        :: EvSelect s (fsub end_ time_) Ready
                        :: EvTime time_ :: acc)) in Hrun;
             [exact Hrun | exact Hs | | | | | |].
           ++ cbn [trace]. rewrite Htr. reflexivity.
           ++ apply Forall_app. split; [assumption|].
              constructor; [discriminate | constructor].
           ++ rewrite join_snoc, Hjoin. reflexivity.
           ++ cbn. auto.
           ++ exact Hsig.
           ++ exact Herr.
      * (* the read raised *)
        injection Hrun as <- <- <-.
        exists (EvRecvError s recv_size e
                  :: EvSelect s (fsub end_ time_) Ready :: EvTime time_ :: acc).
        cbn [trace]. rewrite Htr.
        split; [reflexivity|]. split; [cbn; auto|]. right; right.
        exists e. repeat split; auto.
    + (* nothing readable *)
      destruct (fgt (clock (oracle w) (n_time w)) end_) eqn:Hlate.
      * injection Hrun as <- <- <-.
        exists (EvTime (clock (oracle w) (n_time w))
                  :: EvSelect s (fsub end_ time_) NotReady
                  :: EvTime time_ :: acc).
        cbn [trace]. rewrite Htr.
        split; [reflexivity|]. split; [cbn; auto|]. left.
        split; [|split; [reflexivity|split; [exact Hsig | exact Herr]]].
        rewrite Hjoin. reflexivity.
      * eapply (IH _ _ _ _ _ _ _ _ _ old
                  (EvSelect s (fsub end_ time_) NotReady
                     :: EvTime time_ :: acc))
          in Hrun; [exact Hrun | exact Hs | | | | | |].
        -- cbn [trace]. rewrite Htr. reflexivity.
        -- assumption.
        -- rewrite Hjoin. reflexivity.
        -- cbn. auto.
        -- exact Hsig.
        -- exact Herr.
    + (* select raised ValueError *)
      exists (EvClose s :: EvTime (clock (oracle w) (n_time w))
                :: EvSelect s (fsub end_ time_) SelectValueError
                :: EvTime time_ :: acc).
      destruct data as [|d0 data0]; injection Hrun as <- <- <-;
        cbn [trace socket_close emit]; rewrite Htr;
        (split; [reflexivity|]); (split; [cbn; auto|]); right; left;
        (split; [reflexivity|]); (split; [eauto|]); (split; [reflexivity|]);
        cbn [received]; cbn [received] in Hjoin; rewrite <- Hjoin.
      * reflexivity.
      * change (d0 ++ join data0) with (join (d0 :: data0)).
        destruct (join (d0 :: data0)) eqn:Hj; [|reflexivity].
        apply join_nil_iff in Hj; [discriminate | assumption].
Qed.

Ltac trace_facts :=
  cbn [received asks_remaining selects_while_missing];
  rewrite ?app_nil_r, ?len_app; repeat split; auto; try lia.

Lemma recv_loop_bound (fuel : nat) :
  forall c s n recv_size data data_length time_ end_ w old acc r c' w',
    recv_loop fuel c s (Some n) recv_size data data_length time_ end_ w
      = Some (r, c', w') ->
    socket c = Some s ->
    0 < n ->
    trace w = acc ++ old ->
    data_length = len (received acc) ->
    recv_size = n - data_length ->
    asks_remaining n acc ->
    selects_while_missing n acc ->
    exists new,
      trace w' = new ++ old /\ asks_remaining n new /\
      selects_while_missing n new /\
      (recv_within_bufsize (oracle w) -> len (received acc) <= n ->
       len (received new) <= n).
Proof.
  induction fuel as [|fuel IH];
    intros * Hrun Hs Hn Htr Hlen Hsize Hasks Hsel;
    cbn in Hrun; destruct (recv_size <=? 0) eqn:Hdone.
  - injection Hrun as <- <- <-. exists acc. auto.
  - discriminate.
  - injection Hrun as <- <- <-. exists acc. auto.
  - apply Z.leb_gt in Hdone.
    assert (Hnz : (n =? 0) = false) by (apply Z.eqb_neq; lia).
    rewrite Hnz, Hs in Hrun. cbn [negb] in Hrun.
    destruct (select_answer (oracle w) (n_select w)).
    + destruct (recv_answer (oracle w) (n_recv w) recv_size)
        as [[|b chunk]|e] eqn:Hanswer.
      * exists (EvClose s :: EvTime (clock (oracle w) (n_time w))
                  :: EvRecv s recv_size []
                  :: EvSelect s (fsub end_ time_) Ready :: acc).
        destruct data; injection Hrun as <- <- <-;
          cbn [trace socket_close emit]; rewrite Htr;
          (split; [reflexivity|]); trace_facts.
      * destruct (fgt (clock (oracle w) (n_time w)) end_).
        -- injection Hrun as <- <- <-.
           exists (EvTime (clock (oracle w) (n_time w))
                     :: EvRecv s recv_size (b :: chunk)
                     :: EvSelect s (fsub end_ time_) Ready :: acc).
           cbn [trace]. rewrite Htr. split; [reflexivity|]. trace_facts.
           intros Hos Hle.
           specialize (Hos (n_recv w) recv_size (b :: chunk) Hdone Hanswer).
           lia.
        -- eapply (IH _ _ _ _ _ _ _ _ _ old
                     (EvTime (clock (oracle w) (n_time w))
                        :: EvRecv s recv_size (b :: chunk)
                        :: EvSelect s (fsub end_ time_) Ready :: acc)) in Hrun;
             [ | exact Hs | exact Hn | cbn [trace]; now rewrite Htr
               | trace_facts | reflexivity | trace_facts | trace_facts ].
           destruct Hrun as (new & Hnew & Ha & Hw & Hbound).
           exists new. repeat split; auto.
           intros Hos Hle. apply Hbound; [exact Hos|].
           specialize (Hos (n_recv w) recv_size (b :: chunk) Hdone Hanswer).
           trace_facts.
      * injection Hrun as <- <- <-.
        exists (EvRecvError s recv_size e
                  :: EvSelect s (fsub end_ time_) Ready :: acc).
        cbn [trace]. rewrite Htr. split; [reflexivity|]. trace_facts.
    + destruct (fgt (clock (oracle w) (n_time w)) end_).
      * injection Hrun as <- <- <-.
        exists (EvTime (clock (oracle w) (n_time w))
                  :: EvSelect s (fsub end_ time_) NotReady :: acc).
        cbn [trace]. rewrite Htr. split; [reflexivity|]. trace_facts.
      * eapply (IH _ _ _ _ _ _ _ _ _ old
                  (EvTime (clock (oracle w) (n_time w))
                     :: EvSelect s (fsub end_ time_) NotReady :: acc)) in Hrun;
          [ exact Hrun | exact Hs | exact Hn | cbn [trace]; now rewrite Htr
            | trace_facts | trace_facts | trace_facts | trace_facts ].
    + exists (EvClose s :: EvTime (clock (oracle w) (n_time w))
                :: EvSelect s (fsub end_ time_) SelectValueError :: acc).
      destruct data; injection Hrun as <- <- <-;
        cbn [trace socket_close emit]; rewrite Htr;
        (split; [reflexivity|]); trace_facts.
Qed.

Lemma recv_loop_terminates (k : nat) :
  forall fuel c s size recv_size data data_length time_ end_ w,
    fgt (clock (oracle w) (n_time w + k)) end_ = true ->
    (k < fuel)%nat ->
    recv_loop fuel c s size recv_size data data_length time_ end_ w <> None.
Proof.
  induction k as [|k IH]; intros [|fuel] * Hclock Hfuel; try lia;
    cbn; destruct (recv_size <=? 0); try discriminate;
    destruct (select_answer (oracle w) (n_select w)); try discriminate;
    try (destruct (recv_answer (oracle w) (n_recv w) recv_size)
           as [[|b chunk]|e];
         try discriminate);
    destruct (fgt (clock (oracle w) (n_time w)) end_) eqn:Hlate;
    try discriminate.
  all: try (rewrite Nat.add_0_r in Hclock; congruence).
  all: apply IH; [cbn [oracle n_time] | lia];
    rewrite Nat.add_succ_r in Hclock; exact Hclock.
Qed.

Lemma empty_read_is_close_signal (tr : list Event) :
  existsb is_empty_read tr = true -> existsb is_close_signal tr = true.
Proof.
  induction tr as [|e tr IH]; cbn; [auto|].
  intros Hex. apply orb_true_iff in Hex. apply orb_true_iff.
  destruct Hex as [He | Hex]; [left | right; auto].
  destruct e; try discriminate. destruct data; [reflexivity | discriminate].
Qed.

(** What one call of [recv] on an open socket appends to the trace, and how
    its result follows from that. *)
Lemma recv_outcome (fuel : nat) c (size : option Z) w s r c' w' :
  socket c = Some s ->
  recv fuel c size w = Some (r, c', w') ->
  let deadline :=
    fadd (clock (oracle w) (n_time w))
      (params_timeout (base (super_recv c size))) in
  exists new,
    trace w' = new ++ trace w /\ selects_until deadline new /\
    ((r = Ok (received new) /\ c' = super_recv c size /\
      existsb is_close_signal new = false /\
      existsb is_read_error new = false) \/
     (c' = set_socket (super_recv c size) None /\
      (exists older, new = EvClose s :: older) /\
      existsb is_close_signal new = true /\
      r = match received new with
          | [] => Raise ConnectionException
          | _ :: _ => Ok (received new)
          end) \/
     (exists e, r = Raise e /\ c' = super_recv c size /\
                existsb is_close_signal new = false /\
                existsb is_read_error new = true)).
Proof.
  intros Hs Hrun deadline. unfold recv in Hrun.
  rewrite socket_super_recv, Hs in Hrun. cbn in Hrun.
  eapply (recv_loop_outcome _ _ _ _ _ _ _ _ _ _ (trace w)
            [EvSetBlocking s false]) in Hrun;
    [exact Hrun | now rewrite socket_super_recv | reflexivity | constructor
    | reflexivity | cbn; auto | reflexivity | reflexivity].
Qed.

(** The calls one [recv] of [n > 0] bytes makes. *)
Lemma recv_calls (fuel : nat) c (n : Z) w s r c' w' :
  socket c = Some s ->
  0 < n ->
  recv fuel c (Some n) w = Some (r, c', w') ->
  exists new,
    trace w' = new ++ trace w /\ asks_remaining n new /\
    selects_while_missing n new /\
    (recv_within_bufsize (oracle w) -> len (received new) <= n).
Proof.
  intros Hs Hn Hrun. unfold recv in Hrun.
  rewrite socket_super_recv, Hs in Hrun. cbn in Hrun.
  eapply (recv_loop_bound _ _ _ _ _ _ _ _ _ _ (trace w)
            [EvTime (clock (oracle w) (n_time w)); EvSetBlocking s false])
    in Hrun; [ | now rewrite socket_super_recv | exact Hn | reflexivity
               | reflexivity | cbn; lia | cbn; auto | cbn; auto ].
  destruct Hrun as (new & Htr & Hasks & Hsel & Hbound).
  exists new. repeat split; auto.
  intros Hos. apply Hbound; [exact Hos | cbn; lia].
Qed.

(** Once a clock reading of the loop is past the deadline, [recv] has
    returned: [k + 1] iterations are enough when the reading of iteration
    [k] is late. *)
Lemma recv_returns (fuel k : nat) c (size : option Z) w :
  fgt (clock (oracle w) (S (n_time w) + k))
    (fadd (clock (oracle w) (n_time w))
       (params_timeout (base (super_recv c size)))) = true ->
  (k < fuel)%nat ->
  exists r c' w', recv fuel c size w = Some (r, c', w').
Proof.
  intros Hclock Hfuel.
  destruct (recv fuel c size w) as [[[r c'] w']|] eqn:Hrun; [eauto|].
  exfalso. revert Hrun. unfold recv.
  destruct (socket (super_recv c size)); [|discriminate]. cbn.
  now apply (recv_loop_terminates k).
Qed.

(** C1: the iteration whose read gives the empty chunk ends the loop at
    once, with the socket closed.  For the whole call: when a read gave the
    empty chunk, [recv] has closed the socket; it raises
    [ConnectionException] if the socket delivered no byte in this call, and
    returns exactly the bytes delivered otherwise. *)
Theorem recv_remote_close (fuel : nat) c (size : option Z) w s :
  socket c = Some s ->
  (forall fuel' recv_size data data_length time_ end_ w0,
     0 < recv_size ->
     select_answer (oracle w0) (n_select w0) = Ready ->
     recv_answer (oracle w0) (n_recv w0) recv_size = Ok [] ->
     exists w1,
       recv_loop (S fuel') c s size recv_size data data_length time_ end_ w0
         = Some (match data with
                 | [] => Raise ConnectionException
                 | _ :: _ => Ok (join data)
                 end, set_socket c None, w1) /\
       hd_error (trace w1) = Some (EvClose s)) /\
  (forall r c' w' new,
     recv fuel c size w = Some (r, c', w') ->
     trace w' = new ++ trace w ->
     existsb is_empty_read new = true ->
     socket c' = None /\
     hd_error new = Some (EvClose s) /\
     (received new = [] -> r = Raise ConnectionException) /\
     (received new <> [] -> r = Ok (received new))).
Proof.
  intros Hs. split.
  - intros fuel' recv_size data data_length time_ end_ w0 Hsize Hsel Hempty.
    cbn. apply Z.leb_gt in Hsize. rewrite Hsize, Hsel, Hempty, Hs.
    destruct data; eexists; split; reflexivity.
  - intros r c' w' new Hrun Hnew Heof.
    destruct (recv_outcome _ _ _ _ _ _ _ _ Hs Hrun)
      as (new0 & Htr & _ & Hcases).
    assert (new0 = new) as -> by (apply (app_inv_tail (trace w)); congruence).
    apply empty_read_is_close_signal in Heof.
    destruct Hcases
      as [(_ & _ & Hquiet & _)
         | [(-> & [older ->] & _ & ->) | (e & _ & _ & Hquiet & _)]];
      try congruence.
    split; [reflexivity|]. split; [reflexivity|].
    destruct (received (EvClose s :: older)); split; congruence.
Qed.

(** C2: the deadline of a call is the clock at its start plus the configured
    timeout.  Once a clock reading taken by the loop is past the deadline the
    call has returned (enough fuel gives a result), and the iteration whose
    read brings the bytes in hand to [size] ends the loop at once.  Every
    [select] waits until the deadline at most and, for a positive [size], is
    made only while bytes are missing; and a call that saw no close of the
    connection and no read that raised returns the bytes delivered so far,
    on a socket left open. *)
Theorem recv_deadline (fuel : nat) c (size : option Z) w s :
  socket c = Some s ->
  let deadline :=
    fadd (clock (oracle w) (n_time w))
      (params_timeout (base (super_recv c size))) in
  (forall k, fgt (clock (oracle w) (S (n_time w) + k)) deadline = true ->
             (k < fuel)%nat ->
             exists r c' w', recv fuel c size w = Some (r, c', w')) /\
  (forall fuel' n recv_size data data_length time_ end_ w0 b chunk,
     size = Some n -> 0 < n -> 0 < recv_size ->
     select_answer (oracle w0) (n_select w0) = Ready ->
     recv_answer (oracle w0) (n_recv w0) recv_size = Ok (b :: chunk) ->
     n <= data_length + len (b :: chunk) ->
     exists w1,
       recv_loop (S fuel') c s size recv_size data data_length time_ end_ w0
         = Some (Ok (join (data ++ [b :: chunk])), c, w1)) /\
  (forall r c' w' new,
     recv fuel c size w = Some (r, c', w') ->
     trace w' = new ++ trace w ->
     selects_until deadline new /\
     (forall n, size = Some n -> 0 < n -> selects_while_missing n new) /\
     (existsb is_close_signal new = false ->
      existsb is_read_error new = false ->
      r = Ok (received new) /\ c' = super_recv c size /\
      socket c' = Some s)).
Proof.
  intros Hs deadline. split; [|split].
  - intros k Hclock Hfuel. now apply (recv_returns fuel k).
  - intros fuel' n recv_size data data_length time_ end_ w0 b chunk
      -> Hn Hsize Hsel Hread Hfull.
    cbn. apply Z.leb_gt in Hsize. rewrite Hsize, Hsel, Hread.
    assert (Hnz : (n =? 0) = false) by (apply Z.eqb_neq; lia).
    rewrite Hnz. cbn [negb].
    destruct (fgt (clock (oracle w0) (n_time w0)) end_);
      [eexists; reflexivity|].
    unfold len in Hfull. cbn in Hfull.
    destruct fuel'; cbn;
      match goal with
      | |- context [?x <=? 0] =>
          replace (x <=? 0) with true by (symmetry; apply Z.leb_le; lia)
      end; eexists; reflexivity.
  - intros r c' w' new Hrun Hnew.
    destruct (recv_outcome _ _ _ _ _ _ _ _ Hs Hrun)
      as (new0 & Htr & Hsel & Hcases).
    assert (new0 = new) as -> by (apply (app_inv_tail (trace w)); congruence).
    split; [exact Hsel|]. split.
    + intros n -> Hn.
      destruct (recv_calls _ _ _ _ _ _ _ _ Hs Hn Hrun)
        as (new1 & Htr1 & _ & Hmissing & _).
      assert (new1 = new) as ->
        by (apply (app_inv_tail (trace w)); congruence).
      exact Hmissing.
    + intros Hquiet Hclean.
      destruct Hcases
        as [(-> & -> & _) | [(_ & _ & Hsig & _) | (e & _ & _ & _ & Herr)]];
        try congruence.
      now rewrite socket_super_recv.
Qed.

(** C9: for a positive [size], on a socket that answers a read of [bufsize]
    bytes with at most [bufsize] bytes: every read of a call asks for [size]
    minus the bytes delivered so far, the bytes delivered and the bytes
    returned are at most [size]; and the call returns once a clock reading is
    past the deadline. *)
Theorem recv_at_most_size (fuel : nat) c (n : Z) w :
  0 < n ->
  recv_within_bufsize (oracle w) ->
  (forall r c' w',
     recv fuel c (Some n) w = Some (r, c', w') ->
     (forall b, r = Ok b -> len b <= n) /\
     (forall new, trace w' = new ++ trace w ->
                  asks_remaining n new /\ len (received new) <= n)) /\
  (forall k,
     fgt (clock (oracle w) (S (n_time w) + k))
       (fadd (clock (oracle w) (n_time w))
          (params_timeout (base (super_recv c (Some n))))) = true ->
     (k < fuel)%nat ->
     exists r c' w', recv fuel c (Some n) w = Some (r, c', w')).
Proof.
  intros Hn Hos. split; [|intros k; apply recv_returns].
  intros r c' w' Hrun.
  destruct (socket c) as [s|] eqn:Hs.
  - destruct (recv_outcome _ _ _ _ _ _ _ _ Hs Hrun)
      as (new0 & Htr & _ & Hcases).
    destruct (recv_calls _ _ _ _ _ _ _ _ Hs Hn Hrun)
      as (new1 & Htr1 & Hasks & _ & Hbound).
    assert (new1 = new0) as ->
      by (apply (app_inv_tail (trace w)); congruence).
    specialize (Hbound Hos).
    split.
    + intros b ->.
      destruct Hcases
        as [([= ->] & _) | [(_ & _ & _ & Hr) | (e & He & _)]];
        [exact Hbound | | discriminate].
      destruct (received new0); [discriminate|].
      now injection Hr as ->.
    + intros new Hnew.
      assert (new0 = new) as ->
        by (apply (app_inv_tail (trace w)); congruence).
      auto.
  - unfold recv in Hrun. rewrite socket_super_recv, Hs in Hrun.
    injection Hrun as <- <- <-.
    split; [discriminate|].
    intros new Hnew.
    assert (new = []) as ->
      by (apply (app_inv_tail (trace w)); exact (eq_sym Hnew)).
    cbn. split; [exact I | lia].
Qed.

End ClientProperties.

(** ** Worked examples for the client *)

Lemma scripted_within_bufsize times late selects reads failures :
  recv_within_bufsize (scripted times late selects reads failures).
Proof.
  intros i bufsize data Hpos. cbn.
  destruct (nth i reads (Ok [])); [|discriminate].
  intros [= <-]. unfold len. rewrite length_firstn. lia.
Qed.

(** The peer sends two bytes and closes: [recv] closes descriptor 3 and
    returns the two bytes. *)
Lemma recv_remote_close_witness :
  let c := example_client (Some 3%nat) false in
  let w := start eof_oracle in
  let new := [EvClose 3%nat; EvTime 20; EvRecv 3%nat 3 [];
              EvSelect 3%nat 2990 Ready; EvTime 10;
              EvRecv 3%nat 5 [x01; x02]; EvSelect 3%nat 3000 Ready;
              EvTime 0; EvSetBlocking 3%nat false] in
  let w' := Build_World eof_oracle 3 2 2 0 0 3 new in
  let c' := example_client None false in
  (socket c = Some 3%nat /\
   recv 5 c (Some 5) w = Some (Ok [x01; x02], c', w') /\
   trace w' = new ++ trace w /\
   existsb is_empty_read new = true) /\
  (socket c' = None /\
   hd_error new = Some (EvClose 3%nat) /\
   (received new = [] -> Ok [x01; x02] = Raise ConnectionException) /\
   (received new <> [] -> Ok [x01; x02] = Ok (received new))).
Proof.
  intros c w new w' c'.
  split; [repeat split|].
  destruct (recv_remote_close 5 c (Some 5) w 3%nat eq_refl) as [_ Hcall].
  apply (Hcall (Ok [x01; x02]) c' w' new); reflexivity.
Defined.

(** The peer falls silent after three of five bytes: the reading 4000 is
    past the deadline 3000 and [recv] returns the three bytes on the open
    socket. *)
Lemma recv_deadline_witness :
  let c := example_client (Some 3%nat) false in
  let w := start slow_oracle in
  let new := [EvTime 4000; EvSelect 3%nat 2980 NotReady; EvTime 20;
              EvRecv 3%nat 3 [x03]; EvSelect 3%nat 2990 Ready; EvTime 10;
              EvRecv 3%nat 5 [x01; x02]; EvSelect 3%nat 3000 Ready;
              EvTime 0; EvSetBlocking 3%nat false] in
  let w' := Build_World slow_oracle 4 3 2 0 0 3 new in
  (socket c = Some 3%nat /\
   fgt (clock (oracle w) (S (n_time w) + 2)) (fadd 0 3000) = true /\
   (2 < 10)%nat /\
   recv 10 c (Some 5) w = Some (Ok [x01; x02; x03], c, w') /\
   trace w' = new ++ trace w /\
   0 < 5 /\
   existsb is_close_signal new = false /\
   existsb is_read_error new = false) /\
  ((exists r c1 w1, recv 10 c (Some 5) w = Some (r, c1, w1)) /\
   selects_until 3000 new /\
   selects_while_missing 5 new /\
   Ok [x01; x02; x03] = Ok (received new) /\
   socket c = Some 3%nat).
Proof.
  intros c w new w'.
  split; [repeat split; solve [reflexivity | lia]|].
  destruct (recv_deadline 10 c (Some 5) w 3%nat eq_refl)
    as (Hends & _ & Hout).
  split.
  - apply (Hends 2%nat); [reflexivity | lia].
  - destruct (Hout (Ok [x01; x02; x03]) c w' new eq_refl eq_refl)
      as (Hsel & Hmissing & Hquiet).
    split; [exact Hsel|].
    split; [apply (Hmissing 5); reflexivity|].
    destruct (Hquiet eq_refl eq_refl) as (Hr & _ & Hopen).
    split; [exact Hr | exact Hopen].
Defined.

(** A retry finds three bytes in the read buffer: [send] returns them and
    writes nothing. *)
Lemma send_while_retrying_witness :
  let c := example_client (Some 3%nat) true in
  let w := start waiting_oracle in
  let w1 := Build_World waiting_oracle 1 1 1 0 0 3
              [EvRecv 3%nat 1024 [x01; x02; x03];
               EvSelect 3%nat 3000 Ready; EvTime 0] in
  (socket c = Some 3%nat /\
   retrying (base (super_send c [x05])) = true /\
   _check_read_buffer (super_send c [x05]) w
     = (Ok (Some [x01; x02; x03]), w1)) /\
  (send c [x05] w = (Ok (VBytes [x01; x02; x03]), super_send c [x05], w1) /\
   sent (trace (snd (send c [x05] w))) = sent (trace w)).
Proof.
  intros c w w1.
  split; [repeat split|].
  apply (send_while_retrying c [x05] w w1 3%nat (Some [x01; x02; x03]));
    reflexivity.
Defined.


(** A client without socket: [send] and [recv] raise and the world is
    untouched. *)
Lemma closed_client_raises_witness :
  let c := example_client None false in
  let w := start waiting_oracle in
  socket c = None /\
  (send c [x05] w = (Raise ConnectionException, super_send c [x05], w) /\
   recv 10 c (Some 5) w
     = Some (Raise ConnectionException, super_recv c (Some 5), w) /\
   socket (super_send c [x05]) = None /\
   socket (super_recv c (Some 5)) = None /\
   set_base (super_send c [x05]) (base c) = c /\
   set_base (super_recv c (Some 5)) (base c) = c).
Proof.
  intros c w. split; [reflexivity|].
  exact (closed_client_raises c [x05] (Some 5) 10 w eq_refl).
Defined.

(** Three bytes are waiting and two are asked for: the read asks for two and
    [recv] returns two. *)
Lemma recv_at_most_size_witness :
  let c := example_client (Some 3%nat) false in
  let w := start waiting_oracle in
  let new := [EvTime 10; EvRecv 3%nat 2 [x01; x02];
              EvSelect 3%nat 3000 Ready; EvTime 0;
              EvSetBlocking 3%nat false] in
  let w' := Build_World waiting_oracle 2 1 1 0 0 3 new in
  (0 < 2 /\ recv_within_bufsize (oracle w) /\
   recv 10 c (Some 2) w = Some (Ok [x01; x02], c, w') /\
   trace w' = new ++ trace w) /\
  (len [x01; x02] <= 2 /\ asks_remaining 2 new /\ len (received new) <= 2).
Proof.
  intros c w new w'.
  pose proof (scripted_within_bufsize [0; 10]%float 20%float [Ready]
                [Ok [x01; x02; x03]] [])
    as Hos.
  assert (Hrun : recv 10 c (Some 2) w = Some (Ok [x01; x02], c, w'))
    by reflexivity.
  split; [repeat split; solve [reflexivity | exact Hos]|].
  destruct (recv_at_most_size 10 c 2 w eq_refl Hos) as [Hbound _].
  destruct (Hbound (Ok [x01; x02]) c w' Hrun) as [Hresult Hcalls].
  split; [now apply Hresult | now apply Hcalls].
Defined.

(** [close] on a client without socket, and [connect] on an open client and
    on a refused connection. *)
Lemma close_makes_not_open_witness :
  let c := example_client None false in
  let w := start waiting_oracle in
  socket c = None /\ close c w = (c, w).
Proof.
  intros c w. split; [reflexivity|].
  destruct (close_makes_not_open c w) as (_ & _ & _ & _ & Hclosed & _).
  now apply Hclosed.
Defined.


(** C3 as stated does not hold: a retry that finds data in the read buffer
    returns it, and the request is not written. *)
Lemma retry_with_buffered_data_skips_write : ~ retry_always_retransmits.
Proof.
  intros Hclaim.
  assert (Hrequest : [x05] <> []) by discriminate.
  specialize (Hclaim ExampleBase example_base
                (example_client (Some 3%nat) true) [x05]
                (start waiting_oracle) 3%nat eq_refl eq_refl Hrequest).
  cbn in Hclaim. discriminate Hclaim.
Qed.

(** C8 as stated does not hold: with the hooks of the library's base class,
    [send] on a client without socket leaves the transaction state at
    [SENDING], where it was [IDLE]. *)
Lemma closed_send_moves_state : ~ closed_client_unchanged.
Proof.
  intros Hclaim.
  destruct (Hclaim LibraryBase library_base library_client [x05] None 0%nat
              (start willing_oracle) eq_refl) as [Hsend _].
  cbn in Hsend. discriminate Hsend.
Qed.


(** ** Properties of the server example *)

Section ServerProperties.

Import server_sync.

Variables Datastore Identity : Type.
Variable get_certificate : string -> string.

(** C5, amended: [run_sync_server] starts the server that [--comm] selects
    and hands it the framer unchanged; whether a configuration is rejected
    does not depend on the framer, and the only rejection is the unbound
    local of an unknown [--comm]. *)
Theorem run_sync_server_passes_framer (args : Args Datastore Identity) :
  match run_sync_server _ _ get_certificate args with
  | Ok call =>
      call_framer _ _ call = framer _ _ args /\
      call_comm _ _ call = comm _ _ args
  | Raise e =>
      e = UnboundLocalError /\
      ~ In (comm _ _ args) ["tcp"; "udp"; "serial"; "tls"]%string
  end /\
  forall f,
    rejected _ _ (run_sync_server _ _ get_certificate (with_framer _ _ args f))
    = rejected _ _ (run_sync_server _ _ get_certificate args).
Proof.
  unfold run_sync_server. cbn [comm with_framer].
  destruct (String.eqb_spec (comm _ _ args) "tcp") as [Etcp|Ntcp];
    [now rewrite Etcp|].
  destruct (String.eqb_spec (comm _ _ args) "udp") as [Eudp|Nudp];
    [now rewrite Eudp|].
  destruct (String.eqb_spec (comm _ _ args) "serial") as [Eser|Nser];
    [now rewrite Eser|].
  destruct (String.eqb_spec (comm _ _ args) "tls") as [Etls|Ntls];
    [now rewrite Etls|].
  repeat split; auto. cbn. intuition congruence.
Qed.

End ServerProperties.

(** C5 as stated does not hold: the TLS framer on a serial line is not a
    pair the spec knows, and the serial server is started with it. *)
Lemma serial_with_tls_framer_is_started : ~ nonsensical_pairs_rejected.
Proof.
  intros Hclaim.
  specialize (Hclaim unit unit (fun kind => kind) serial_tls_args eq_refl).
  discriminate Hclaim.
Qed.

(** ** Further properties of the TCP client *)

Lemma substring_whole (s : string) : substring 0 (String.length s) s = s.
Proof. induction s as [|a s IH]; cbn; [reflexivity | now rewrite IH]. Qed.

Lemma drop_prefix_append (p s : string) :
  drop_prefix (String.length p) (p ++ s) = s.
Proof.
  unfold drop_prefix. induction p as [|a p IH]; cbn.
  - rewrite Nat.sub_0_r. apply substring_whole.
  - exact IH.
Qed.

Lemma unix_host_path (path : string) :
  prefix "unix:" ("unix:" ++ path) = true /\
  drop_prefix 5 ("unix:" ++ path) = path.
Proof.
  split; [|exact (drop_prefix_append "unix:" path)].
  apply prefix_correct. destruct path; reflexivity.
Qed.

(** Case analysis on the answers of the calls that may fail. *)
Ltac split_calls :=
  repeat (cbn;
          match goal with
          | |- context [os_error ?o ?i] => destruct (os_error o i)
          | |- context [match os_exception ?o ?i with _ => _ end] =>
              destruct (os_exception o i)
          | |- context [timeout_refused ?t] => destruct (timeout_refused t)
          end).

Section MoreClientProperties.

Context {Base : Type} `{ModbusBaseClient Base}.

Implicit Types (c : @ModbusTcpClient Base) (w : World) (s : Socket).

(** X1: the asynchronous client sets its transport up from the host name:
    [unix:<path>] asks for the unix domain socket [<path>], any other host
    for TCP to that host and port (502 when none is given); with
    [internal_no_setup] among the keyword arguments nothing is set up. *)
Theorem async_init_transport_setup (host : string) (port : option Z)
  (framer : option Framer) (source_address : option (string * Z))
  (kwargs : Kwargs) :
  let client :=
    AsyncModbusTcpClient_init host port framer source_address kwargs in
  (kw_in "internal_no_setup" kwargs = true ->
   new_transport_setup client = None) /\
  (kw_in "internal_no_setup" kwargs = false ->
   forall path, host = ("unix:" ++ path)%string ->
                new_transport_setup client = Some (setup_unix false path)) /\
  (kw_in "internal_no_setup" kwargs = false ->
   prefix "unix:" host = false ->
   new_transport_setup client
     = Some (setup_tcp false host (default 502 port))).
Proof.
  intros client. subst client. unfold AsyncModbusTcpClient_init.
  cbn [new_transport_setup]. split; [|split].
  - now intros ->.
  - intros -> path ->. destruct (unix_host_path path) as [-> ->]. reflexivity.
  - now intros -> ->.
Qed.

(** X2: when no call fails and the configured timeout is one a socket
    takes, [connect] on a client without socket returns [True] holding the
    new socket.  For a host [unix:<path>] it makes a unix socket, sets the
    configured timeout on it and connects it to [<path>]; for any other host
    it makes one [create_connection] to host and port with the configured
    timeout and source address. *)
Theorem connect_opens_socket c w :
  socket c = None ->
  timeout_refused (params_timeout (base c)) = false ->
  os_error (oracle w) (n_os w) = false ->
  os_error (oracle w) (S (n_os w)) = false ->
  os_error (oracle w) (S (S (n_os w))) = false ->
  let s := next_fd w in
  let timeout := params_timeout (base c) in
  exists w',
    connect c w = (Ok true, set_socket c (Some s), w') /\
    (forall path, params_host c = ("unix:" ++ path)%string ->
       trace w' = [EvGetSockName s true; EvConnect s path true;
                   EvSetTimeout s timeout; EvSocketUnix (Some s)]
                  ++ trace w) /\
    (prefix "unix:" (params_host c) = false ->
       trace w' = [EvGetSockName s true;
                   EvCreateConnection (params_host c) (params_port c) timeout
                     (params_source_address c) (Some s)]
                  ++ trace w).
Proof.
  intros Hnone Htimeout Hok0 Hok1 Hok2 s timeout.
  unfold connect, connect_try, socket_unix, socket_connect, create_connection,
    getsockname, os_call, settimeout, emit.
  rewrite Hnone.
  destruct (prefix "unix:" (params_host c)) eqn:Hunix; cbn;
    rewrite ?Hok0; cbn; rewrite ?Htimeout; cbn; rewrite ?Hok1; cbn;
    rewrite ?Hok2; cbn;
    eexists; (split; [reflexivity|]); cbn; split.
  - intros path Hhost. rewrite Hhost.
    destruct (unix_host_path path) as [_ Hdrop].
    unfold drop_prefix in Hdrop. cbn in Hdrop |- *. now rewrite Hdrop.
  - discriminate.
  - intros path Hhost. rewrite Hhost in Hunix.
    destruct (unix_host_path path) as [Hp _]. cbn [append] in Hp.
    congruence.
  - reflexivity.
Qed.

(** X3: [connect] leaks no socket.  When it returns [False] the client holds
    no socket and every socket the call opened was closed by it; when it
    returns [True] on a client that had none, the socket held is the one the
    call opened, and the call closed nothing. *)
Theorem connect_leaks_no_socket c w (b : bool) c' w' :
  socket c = None ->
  connect c w = (Ok b, c', w') ->
  exists new,
    trace w' = new ++ trace w /\
    if b then exists s, socket c' = Some s /\ opened new = [s] /\
                        closed_sockets new = []
    else socket c' = None /\ opened new = closed_sockets new.
Proof.
  intros Hnone.
  unfold connect, connect_try, socket_unix, socket_connect, create_connection,
    getsockname, os_call, settimeout, emit, close, socket_close.
  rewrite Hnone.
  destruct (prefix "unix:" (params_host c)); split_calls;
    rewrite ?Hnone; intros Hrun; try discriminate Hrun;
    injection Hrun as <- <- <-; cbn.
  all: try (exists []; cbn; now auto).
  all: try (eexists [_; _; _; _; _]; cbn; split; [reflexivity|]; cbn;
            solve [eauto]).
  all: try (eexists [_; _; _; _]; cbn; split; [reflexivity|]; cbn;
            solve [eauto]).
  all: try (eexists [_; _; _]; cbn; split; [reflexivity|]; cbn;
            solve [eauto]).
  all: try (eexists [_; _]; cbn; split; [reflexivity|]; cbn; solve [eauto]).
  all: try (eexists [_]; cbn; split; [reflexivity|]; cbn; solve [eauto]).
Qed.

(** X4: after a [connect] that returned [True], another [connect] returns
    [True] and does nothing; after one that returned [False] the client is
    closed, and another [connect] makes a new attempt. *)
Theorem connect_again c w (b : bool) c' w' :
  connect c w = (Ok b, c', w') ->
  (b = true -> connect c' w' = (Ok true, c', w')) /\
  (b = false ->
   is_socket_open c' = false /\
   (n_os w' < n_os (snd (connect c' w')))%nat).
Proof.
  intros Hrun. pose proof (connect_returns_connected _ _ _ _ _ Hrun) as ->.
  unfold connected, is_socket_open.
  destruct (socket c') as [s|] eqn:Hs; split; try discriminate.
  - intros _. unfold connect. now rewrite Hs.
  - intros _. split; [reflexivity|].
    unfold connect, connect_try, socket_unix, socket_connect,
      create_connection, getsockname, os_call, settimeout, emit, close,
      socket_close.
    rewrite Hs.
    destruct (prefix "unix:" (params_host c')); split_calls;
      rewrite ?Hs; cbn; lia.
Qed.

(** X5: a [size] of zero or less makes [recv] return [b""] at once: the
    socket is switched to non-blocking and the clock is read, and there is
    no [select] and no read, whatever the fuel. *)
Theorem recv_nonpositive_size (fuel : nat) c (n : Z) w s :
  socket c = Some s ->
  n <= 0 ->
  exists w',
    recv fuel c (Some n) w = Some (Ok [], super_recv c (Some n), w') /\
    trace w' = [EvTime (clock (oracle w) (n_time w)); EvSetBlocking s false]
               ++ trace w.
Proof.
  intros Hs Hn. unfold recv. rewrite socket_super_recv, Hs. cbn.
  apply Z.leb_le in Hn.
  destruct fuel; cbn; rewrite Hn; eexists; split; reflexivity.
Qed.

Ltac recv_calls_ok :=
  repeat (constructor; [cbn; auto|]); first [assumption | constructor].

Lemma recv_loop_exit (fuel : nat) :
  forall c s size recv_size data data_length time_ end_ w old acc r c' w',
    recv_loop fuel c s size recv_size data data_length time_ end_ w
      = Some (r, c', w') ->
    socket c = Some s ->
    trace w = acc ++ old ->
    Forall (recv_call s size) acc ->
    data_length = len (received acc) ->
    match size with
    | Some n => recv_size = n - data_length
    | None => recv_size = 4096
    end ->
    exists new,
      trace w' = new ++ old /\ Forall (recv_call s size) new /\
      (existsb is_close_signal new = true \/
       existsb is_read_error new = true \/
       (exists t older, new = EvTime t :: older /\ fgt t end_ = true) \/
       (exists n, size = Some n /\ n <= len (received new))).
Proof.
  induction fuel as [|fuel IH]; intros * Hrun Hs Htr Hcalls Hlen Hinv;
    cbn in Hrun; destruct (recv_size <=? 0) eqn:Hdone.
  - injection Hrun as <- <- <-. exists acc. repeat split; auto.
    do 3 right. apply Z.leb_le in Hdone.
    destruct size as [n|]; [exists n; split; [reflexivity | lia] | lia].
  - discriminate.
  - injection Hrun as <- <- <-. exists acc. repeat split; auto.
    do 3 right. apply Z.leb_le in Hdone.
    destruct size as [n|]; [exists n; split; [reflexivity | lia] | lia].
  - apply Z.leb_gt in Hdone. rewrite Hs in Hrun.
    assert (Hbuf : size = None -> recv_size = 4096) by (now intros ->).
    assert (Hnext : forall have,
               match size with
               | Some n =>
                   (if size_truthy size then default 0 size - have
                    else recv_size) = n - have
               | None =>
                   (if size_truthy size then default 0 size - have
                    else recv_size) = 4096
               end).
    { intros have. destruct size as [n|]; cbn; [|exact Hinv].
      destruct (n =? 0) eqn:Hzero; [|reflexivity].
      apply Z.eqb_eq in Hzero. unfold len in Hlen. lia. }
    destruct (select_answer (oracle w) (n_select w)).
    + destruct (recv_answer (oracle w) (n_recv w) recv_size)
        as [[|b chunk]|e] eqn:Hanswer.
      * exists (EvClose s :: EvTime (clock (oracle w) (n_time w))
                  :: EvRecv s recv_size []
                  :: EvSelect s (fsub end_ time_) Ready :: acc).
        destruct data; injection Hrun as <- <- <-;
          cbn [trace socket_close emit]; rewrite Htr;
          (split; [reflexivity|]); (split; [recv_calls_ok|]);
          left; reflexivity.
      * destruct (fgt (clock (oracle w) (n_time w)) end_) eqn:Hlate.
        -- injection Hrun as <- <- <-.
           exists (EvTime (clock (oracle w) (n_time w))
                     :: EvRecv s recv_size (b :: chunk)
                     :: EvSelect s (fsub end_ time_) Ready :: acc).
           cbn [trace]. rewrite Htr. split; [reflexivity|].
           split; [recv_calls_ok|]. right; right; left.
           do 2 eexists. split; [reflexivity | exact Hlate].
        -- eapply (IH _ _ _ _ _ _ _ _ _ old
                     (EvTime (clock (oracle w) (n_time w))
                        :: EvRecv s recv_size (b :: chunk)
                        :: EvSelect s (fsub end_ time_) Ready :: acc)) in Hrun;
             [ exact Hrun | exact Hs | cbn [trace]; now rewrite Htr
               | recv_calls_ok | | apply Hnext ].
           cbn [received]. rewrite len_app. lia.
      * injection Hrun as <- <- <-.
        exists (EvRecvError s recv_size e
                  :: EvSelect s (fsub end_ time_) Ready :: acc).
        cbn [trace]. rewrite Htr. split; [reflexivity|].
        split; [recv_calls_ok|]. right; left. reflexivity.
    + destruct (fgt (clock (oracle w) (n_time w)) end_) eqn:Hlate.
      * injection Hrun as <- <- <-.
        exists (EvTime (clock (oracle w) (n_time w))
                  :: EvSelect s (fsub end_ time_) NotReady :: acc).
        cbn [trace]. rewrite Htr. split; [reflexivity|].
        split; [recv_calls_ok|]. right; right; left.
        do 2 eexists. split; [reflexivity | exact Hlate].
      * eapply (IH _ _ _ _ _ _ _ _ _ old
                  (EvTime (clock (oracle w) (n_time w))
                     :: EvSelect s (fsub end_ time_) NotReady :: acc)) in Hrun;
          [ exact Hrun | exact Hs | cbn [trace]; now rewrite Htr
            | recv_calls_ok | exact Hlen | apply Hnext ].
    + exists (EvClose s :: EvTime (clock (oracle w) (n_time w))
                :: EvSelect s (fsub end_ time_) SelectValueError :: acc).
      destruct data; injection Hrun as <- <- <-;
        cbn [trace socket_close emit]; rewrite Htr;
        (split; [reflexivity|]); (split; [recv_calls_ok|]);
        left; reflexivity.
Qed.

(** The calls of one [recv] on an open socket, and why it returned. *)
Lemma recv_exit (fuel : nat) c (size : option Z) w s r c' w' :
  socket c = Some s ->
  recv fuel c size w = Some (r, c', w') ->
  let deadline :=
    fadd (clock (oracle w) (n_time w))
      (params_timeout (base (super_recv c size))) in
  exists new,
    trace w' = new ++ trace w /\ Forall (recv_call s size) new /\
    (existsb is_close_signal new = true \/
     existsb is_read_error new = true \/
     (exists t older, new = EvTime t :: older /\ fgt t deadline = true) \/
     (exists n, size = Some n /\ n <= len (received new))).
Proof.
  intros Hs Hrun deadline. unfold recv in Hrun.
  rewrite socket_super_recv, Hs in Hrun. cbn in Hrun.
  eapply (recv_loop_exit _ _ _ _ _ _ _ _ _ _ (trace w)
            [EvTime (clock (oracle w) (n_time w)); EvSetBlocking s false])
    in Hrun;
    [ exact Hrun | now rewrite socket_super_recv | reflexivity
      | recv_calls_ok | reflexivity | destruct size; [lia | reflexivity] ].
Qed.

(** X6: [recv] on an open socket ends for one of four reasons only.  The
    connection was found closed, and then the client holds no socket any
    more.  Or a read raised: the exception goes through and the socket is
    still held.  Or, with no such event and the socket still held, the bytes
    delivered are returned, and then the last clock reading is past the
    deadline or at least [size] bytes were delivered. *)
Theorem recv_exit_reasons (fuel : nat) c (size : option Z) w s r c' w' :
  socket c = Some s ->
  recv fuel c size w = Some (r, c', w') ->
  let deadline :=
    fadd (clock (oracle w) (n_time w))
      (params_timeout (base (super_recv c size))) in
  exists new,
    trace w' = new ++ trace w /\
    ((existsb is_close_signal new = true /\ socket c' = None) \/
     (existsb is_read_error new = true /\ socket c' = Some s /\
      exists e, r = Raise e) \/
     (existsb is_close_signal new = false /\
      existsb is_read_error new = false /\
      r = Ok (received new) /\ socket c' = Some s /\
      ((exists t older, new = EvTime t :: older /\ fgt t deadline = true) \/
       (exists n, size = Some n /\ n <= len (received new))))).
Proof.
  intros Hs Hrun deadline.
  destruct (recv_outcome _ _ _ _ _ _ _ _ Hs Hrun)
    as (new & Htr & _ & Hcases).
  destruct (recv_exit _ _ _ _ _ _ _ _ Hs Hrun)
    as (new1 & Htr1 & _ & Hwhy).
  assert (new1 = new) as -> by (apply (app_inv_tail (trace w)); congruence).
  exists new. split; [exact Htr|].
  destruct Hcases
    as [(-> & -> & Hquiet & Hclean)
       | [(-> & _ & Hsig & _) | (e & -> & -> & _ & Herr)]].
  - right; right. rewrite socket_super_recv.
    destruct Hwhy as [Hsig | [Herr | Hwhy]]; [congruence | congruence | auto].
  - left. auto.
  - right; left. rewrite socket_super_recv. eauto.
Qed.

Lemma recv_calls_write_nothing s size (new old : list Event) :
  Forall (recv_call s size) new ->
  sent (new ++ old) = sent old /\ opened new = [].
Proof.
  induction 1 as [|e new He _ [IHsent IHopened]]; [auto|].
  destruct e; cbn in He |- *; tauto.
Qed.

(** X7: [recv] only works on the socket the client holds: it switches it to
    non-blocking, reads the clock, calls [select], reads a positive number
    of bytes (4096 each time when no size is given) and may close it; it
    writes nothing and opens no socket. *)
Theorem recv_works_on_own_socket (fuel : nat) c (size : option Z) w s
  r c' w' :
  socket c = Some s ->
  recv fuel c size w = Some (r, c', w') ->
  exists new,
    trace w' = new ++ trace w /\ Forall (recv_call s size) new /\
    sent (trace w') = sent (trace w) /\ opened new = [].
Proof.
  intros Hs Hrun.
  destruct (recv_exit _ _ _ _ _ _ _ _ Hs Hrun) as (new & Htr & Hcalls & _).
  exists new. split; [exact Htr|]. split; [exact Hcalls|].
  rewrite Htr. exact (recv_calls_write_nothing s size new (trace w) Hcalls).
Qed.

(** X9: once [recv] has found the connection closed (an empty read, or
    [select] raising [ValueError]) the client is closed: [is_socket_open] is
    false and every later [send] and [recv] raises [ConnectionException]
    without any call on a socket. *)
Theorem closed_after_remote_close (fuel : nat) c (size : option Z) w s
  r c' w' new :
  socket c = Some s ->
  recv fuel c size w = Some (r, c', w') ->
  trace w' = new ++ trace w ->
  existsb is_close_signal new = true ->
  is_socket_open c' = false /\
  forall (request : bytes) (size2 : option Z) (fuel2 : nat) w2,
    send c' request w2
      = (Raise ConnectionException, super_send c' request, w2) /\
    recv fuel2 c' size2 w2
      = Some (Raise ConnectionException, super_recv c' size2, w2).
Proof.
  intros Hs Hrun Hnew Hsig.
  destruct (recv_outcome _ _ _ _ _ _ _ _ Hs Hrun)
    as (new0 & Htr & _ & Hcases).
  assert (new0 = new) as -> by (apply (app_inv_tail (trace w)); congruence).
  destruct Hcases
    as [(_ & _ & Hquiet & _) | [(-> & _) | (e & _ & _ & Hquiet & _)]];
    try congruence.
  split; [reflexivity|].
  intros request size2 fuel2 w2. unfold send, recv.
  rewrite socket_super_send, socket_super_recv. cbn. auto.
Qed.

(** X8: what [send] can do.  The client afterwards is the one the hook of
    the base class left, with the same socket, and nothing was closed, also
    when a call on the socket raised.  With no socket held it raises
    [ConnectionException] and makes no call.  It hands the request to
    [socket.send] at most once.  [bytes] come back only during a retry, are
    not empty and mean that [socket.send] was not called; an [int] comes
    back after the request was handed to [socket.send] once, or is 0 for the
    empty request. *)
Theorem send_outcomes c (request : bytes) w r c' w' :
  send c request w = (r, c', w') ->
  c' = super_send c request /\
  socket c' = socket c /\
  closed_sockets (trace w') = closed_sockets (trace w) /\
  (socket c = None -> r = Raise ConnectionException /\ w' = w) /\
  (sent (trace w') = sent (trace w) \/
   (request <> [] /\ sent (trace w') = request :: sent (trace w))) /\
  (forall data, r = Ok (VBytes data) ->
     retrying (base c') = true /\ data <> [] /\
     sent (trace w') = sent (trace w)) /\
  (forall n, r = Ok (VInt n) ->
     (request = [] /\ n = 0 /\ sent (trace w') = sent (trace w)) \/
     (request <> [] /\ sent (trace w') = request :: sent (trace w))).
Proof.
  unfold send, _check_read_buffer. rewrite socket_super_send.
  destruct (socket c) as [s|] eqn:Hs; cbn.
  - rewrite ?socket_super_send, ?Hs; cbn.
    destruct (retrying (base_send (base c) request)) eqn:Hretry; cbn;
      try destruct (select_answer (oracle w) (n_select w)); cbn;
      try destruct (recv_answer (oracle w) (n_recv w) 1024)
        as [[|b0 data0]|e0]; cbn;
      destruct request as [|b rest]; cbn;
      try match goal with
          | |- context [send_answer ?o ?i ?d] => destruct (send_answer o i d)
          end; cbn;
      intros [= <- <- <-]; cbn;
      (split; [reflexivity|]); (split; [exact Hs|]);
      (split; [reflexivity|]); (split; [discriminate|]);
      (split; [first [ left; reflexivity
                     | right; split; [discriminate | reflexivity] ]|]);
      (split; [intros data; try discriminate; intros [= <-];
               repeat split;
               first [exact Hretry | discriminate | reflexivity]|]);
      intros n; try discriminate; intros [= <-];
      first [ left; repeat split; reflexivity
            | right; split; [discriminate | reflexivity] ].
  - intros [= <- <- <-]. repeat split; try discriminate; auto.
Qed.

(** X12: a client just built holds no socket (there is no connect on
    construction): [is_socket_open] and [connected] are false, the port is
    502 unless given, and [send] and [recv] raise [ConnectionException]
    without any call on a socket. *)
Theorem fresh_client_is_closed (host : string) (port : option Z)
  (framer : option Framer) (source_address : option (string * Z))
  (kwargs : Kwargs) (request : bytes) (size : option Z) (fuel : nat) w :
  let c := ModbusTcpClient_init host port framer source_address kwargs in
  is_socket_open c = false /\
  connected c = false /\
  params_port c = default 502 port /\
  send c request w = (Raise ConnectionException, super_send c request, w) /\
  recv fuel c size w
    = Some (Raise ConnectionException, super_recv c size, w).
Proof. repeat split. Qed.

Lemma recv_loop_in_time (fuel : nat) :
  forall c s size recv_size data data_length time_ end_ w old acc r c' w',
    recv_loop fuel c s size recv_size data data_length time_ end_ w
      = Some (r, c', w') ->
    socket c = Some s ->
    trace w = (EvTime time_ :: acc) ++ old ->
    fgt time_ end_ = false ->
    selects_in_time end_ (EvTime time_ :: acc) ->
    exists new, trace w' = new ++ old /\ selects_in_time end_ new.
Proof.
  induction fuel as [|fuel IH]; intros * Hrun Hs Htr Hnow Hsel;
    cbn in Hrun; destruct (recv_size <=? 0) eqn:Hdone.
  - injection Hrun as <- <- <-. exists (EvTime time_ :: acc). auto.
  - discriminate.
  - injection Hrun as <- <- <-. exists (EvTime time_ :: acc). auto.
  - rewrite Hs in Hrun.
    destruct (select_answer (oracle w) (n_select w)).
    + destruct (recv_answer (oracle w) (n_recv w) recv_size)
        as [[|b chunk]|e].
      * exists (EvClose s :: EvTime (clock (oracle w) (n_time w))
                  :: EvRecv s recv_size []
                  :: EvSelect s (fsub end_ time_) Ready :: EvTime time_ :: acc).
        destruct data; injection Hrun as <- <- <-;
          cbn [trace socket_close emit]; rewrite Htr;
          (split; [reflexivity | cbn; auto]).
      * destruct (fgt (clock (oracle w) (n_time w)) end_) eqn:Hlate.
        -- injection Hrun as <- <- <-.
           exists (EvTime (clock (oracle w) (n_time w))
                     :: EvRecv s recv_size (b :: chunk)
                     :: EvSelect s (fsub end_ time_) Ready
                     :: EvTime time_ :: acc).
           cbn [trace]. rewrite Htr. split; [reflexivity | cbn; auto].
        -- eapply (IH _ _ _ _ _ _ _ _ _ old
                     (EvRecv s recv_size (b :: chunk)
                        :: EvSelect s (fsub end_ time_) Ready
                        :: EvTime time_ :: acc)) in Hrun;
             [ exact Hrun | exact Hs | cbn [trace]; now rewrite Htr
               | exact Hlate | cbn; auto ].
      * injection Hrun as <- <- <-.
        exists (EvRecvError s recv_size e
                  :: EvSelect s (fsub end_ time_) Ready :: EvTime time_ :: acc).
        cbn [trace]. rewrite Htr. split; [reflexivity | cbn; auto].
    + destruct (fgt (clock (oracle w) (n_time w)) end_) eqn:Hlate.
      * injection Hrun as <- <- <-.
        exists (EvTime (clock (oracle w) (n_time w))
                  :: EvSelect s (fsub end_ time_) NotReady
                  :: EvTime time_ :: acc).
        cbn [trace]. rewrite Htr. split; [reflexivity | cbn; auto].
      * eapply (IH _ _ _ _ _ _ _ _ _ old
                  (EvSelect s (fsub end_ time_) NotReady
                     :: EvTime time_ :: acc)) in Hrun;
          [ exact Hrun | exact Hs | cbn [trace]; now rewrite Htr
            | exact Hlate | cbn; auto ].
    + exists (EvClose s :: EvTime (clock (oracle w) (n_time w))
                :: EvSelect s (fsub end_ time_) SelectValueError
                :: EvTime time_ :: acc).
      destruct data; injection Hrun as <- <- <-;
        cbn [trace socket_close emit]; rewrite Htr;
        (split; [reflexivity | cbn; auto]).
Qed.

(** X13: [recv] does not wait on the socket after the deadline has passed.
    When the clock at the start of the call is not past the deadline, every
    [select] of the call follows a clock reading that is not past the
    deadline (the loop leaves on the first reading that is). *)
Theorem recv_selects_in_time (fuel : nat) c (size : option Z) w s r c' w' :
  socket c = Some s ->
  recv fuel c size w = Some (r, c', w') ->
  let deadline :=
    fadd (clock (oracle w) (n_time w))
      (params_timeout (base (super_recv c size))) in
  fgt (clock (oracle w) (n_time w)) deadline = false ->
  exists new, trace w' = new ++ trace w /\ selects_in_time deadline new.
Proof.
  intros Hs Hrun deadline Hstart. unfold recv in Hrun.
  rewrite socket_super_recv, Hs in Hrun. cbn in Hrun.
  eapply (recv_loop_in_time _ _ _ _ _ _ _ _ _ _ (trace w)
            [EvSetBlocking s false]) in Hrun;
    [ exact Hrun | now rewrite socket_super_recv | reflexivity
      | exact Hstart | cbn; auto ].
Qed.

End MoreClientProperties.
(** ** Worked examples for the further properties *)

Lemma async_init_transport_setup_witness :
  (kw_in "internal_no_setup" [] = false /\
   "unix:/run/modbus.sock"%string = ("unix:" ++ "/run/modbus.sock")%string) /\
  new_transport_setup
    (AsyncModbusTcpClient_init (Base := ExampleBase)
       "unix:/run/modbus.sock" None None None [])
    = Some (setup_unix false "/run/modbus.sock").
Proof.
  split; [split; reflexivity|].
  destruct (async_init_transport_setup (Base := ExampleBase)
              "unix:/run/modbus.sock" None None None []) as (_ & Hunix & _).
  apply Hunix; reflexivity.
Defined.

(** The unix domain socket is made on descriptor 3, gets the timeout 3000 and
    is connected to [/run/modbus.sock]. *)
Lemma connect_opens_socket_witness :
  let c := example_unix_client in
  let w := start willing_oracle in
  (socket c = None /\
   timeout_refused (params_timeout (base c)) = false /\
   os_error (oracle w) (n_os w) = false /\
   os_error (oracle w) (S (n_os w)) = false /\
   os_error (oracle w) (S (S (n_os w))) = false /\
   params_host c = ("unix:" ++ "/run/modbus.sock")%string) /\
  exists w',
    connect c w = (Ok true, set_socket c (Some 3%nat), w') /\
    trace w' = [EvGetSockName 3%nat true;
                EvConnect 3%nat "/run/modbus.sock" true;
                EvSetTimeout 3%nat 3000; EvSocketUnix (Some 3%nat)]
               ++ trace w.
Proof.
  intros c w.
  assert (Htimeout : timeout_refused (params_timeout (base c)) = false)
    by reflexivity.
  split; [repeat split; solve [reflexivity | exact Htimeout]|].
  destruct (connect_opens_socket c w eq_refl Htimeout eq_refl eq_refl eq_refl)
    as (w' & Hrun & Hunix & _).
  exists w'. split; [exact Hrun|]. now apply Hunix.
Defined.

(** The unix socket is made and cannot be connected: [connect] closes it
    and returns [False]; the next [connect] tries again. *)
Lemma connect_leaks_no_socket_witness :
  let c := example_unix_client in
  let w := start unreachable_oracle in
  let new := [EvClose 3%nat; EvConnect 3%nat "/run/modbus.sock" false;
              EvSetTimeout 3%nat 3000; EvSocketUnix (Some 3%nat)] in
  let w' := Build_World unreachable_oracle 0 0 0 0 2 4 new in
  (socket c = None /\ connect c w = (Ok false, c, w')) /\
  exists new0,
    trace w' = new0 ++ trace w /\
    socket c = None /\ opened new0 = closed_sockets new0.
Proof.
  intros c w new w'. split; [split; reflexivity|].
  exact (connect_leaks_no_socket c w false c w' eq_refl eq_refl).
Defined.

Lemma connect_again_witness :
  let c := example_unix_client in
  let w := start unreachable_oracle in
  let w' := Build_World unreachable_oracle 0 0 0 0 2 4
              [EvClose 3%nat; EvConnect 3%nat "/run/modbus.sock" false;
               EvSetTimeout 3%nat 3000; EvSocketUnix (Some 3%nat)] in
  connect c w = (Ok false, c, w') /\
  (is_socket_open c = false /\
   (n_os w' < n_os (snd (connect c w')))%nat).
Proof.
  intros c w w'.
  assert (Hrun : connect c w = (Ok false, c, w')) by reflexivity.
  split; [exact Hrun|].
  destruct (connect_again c w false c w' Hrun) as [_ Hfailed].
  now apply Hfailed.
Defined.

(** [recv(0)] reads nothing. *)
Lemma recv_nonpositive_size_witness :
  let c := example_client (Some 3%nat) false in
  let w := start waiting_oracle in
  (socket c = Some 3%nat /\ 0 <= 0) /\
  exists w',
    recv 10 c (Some 0) w = Some (Ok [], super_recv c (Some 0), w') /\
    trace w' = [EvTime 0; EvSetBlocking 3%nat false] ++ trace w.
Proof.
  intros c w. split; [split; [reflexivity | lia]|].
  apply (recv_nonpositive_size 10 c 0 w 3%nat); [reflexivity | lia].
Defined.

(** Three of five bytes come and the peer falls silent: [recv] returns them
    because the reading 4000 is past the deadline 3000. *)
Lemma recv_exit_reasons_witness :
  let c := example_client (Some 3%nat) false in
  let w := start slow_oracle in
  let new := [EvTime 4000; EvSelect 3%nat 2980 NotReady; EvTime 20;
              EvRecv 3%nat 3 [x03]; EvSelect 3%nat 2990 Ready; EvTime 10;
              EvRecv 3%nat 5 [x01; x02]; EvSelect 3%nat 3000 Ready;
              EvTime 0; EvSetBlocking 3%nat false] in
  let w' := Build_World slow_oracle 4 3 2 0 0 3 new in
  (socket c = Some 3%nat /\
   recv 10 c (Some 5) w = Some (Ok [x01; x02; x03], c, w')) /\
  exists new0,
    trace w' = new0 ++ trace w /\
    ((existsb is_close_signal new0 = true /\ socket c = None) \/
     (existsb is_read_error new0 = true /\ socket c = Some 3%nat /\
      exists e, Ok [x01; x02; x03] = Raise e) \/
     (existsb is_close_signal new0 = false /\
      existsb is_read_error new0 = false /\
      Ok [x01; x02; x03] = Ok (received new0) /\ socket c = Some 3%nat /\
      ((exists t older,
          new0 = EvTime t :: older /\ fgt t (fadd 0 3000) = true) \/
       (exists n, Some 5 = Some n /\ n <= len (received new0))))).
Proof.
  intros c w new w'. split; [split; reflexivity|].
  exact (recv_exit_reasons 10 c (Some 5) w 3%nat (Ok [x01; x02; x03]) c w'
           eq_refl eq_refl).
Defined.

Lemma recv_works_on_own_socket_witness :
  let c := example_client (Some 3%nat) false in
  let w := start slow_oracle in
  let w' := Build_World slow_oracle 4 3 2 0 0 3
              [EvTime 4000; EvSelect 3%nat 2980 NotReady; EvTime 20;
               EvRecv 3%nat 3 [x03]; EvSelect 3%nat 2990 Ready; EvTime 10;
               EvRecv 3%nat 5 [x01; x02]; EvSelect 3%nat 3000 Ready;
               EvTime 0; EvSetBlocking 3%nat false] in
  (socket c = Some 3%nat /\
   recv 10 c (Some 5) w = Some (Ok [x01; x02; x03], c, w')) /\
  exists new,
    trace w' = new ++ trace w /\ Forall (recv_call 3%nat (Some 5)) new /\
    sent (trace w') = sent (trace w) /\ opened new = [].
Proof.
  intros c w w'. split; [split; reflexivity|].
  exact (recv_works_on_own_socket 10 c (Some 5) w 3%nat
           (Ok [x01; x02; x03]) c w' eq_refl eq_refl).
Defined.

(** After the peer closed, the next [send] raises. *)
Lemma closed_after_remote_close_witness :
  let c := example_client (Some 3%nat) false in
  let w := start eof_oracle in
  let new := [EvClose 3%nat; EvTime 20; EvRecv 3%nat 3 [];
              EvSelect 3%nat 2990 Ready; EvTime 10;
              EvRecv 3%nat 5 [x01; x02]; EvSelect 3%nat 3000 Ready;
              EvTime 0; EvSetBlocking 3%nat false] in
  let w' := Build_World eof_oracle 3 2 2 0 0 3 new in
  let c' := example_client None false in
  (socket c = Some 3%nat /\
   recv 5 c (Some 5) w = Some (Ok [x01; x02], c', w') /\
   trace w' = new ++ trace w /\
   existsb is_close_signal new = true) /\
  (is_socket_open c' = false /\
   send c' [x05] w'
     = (Raise ConnectionException, super_send c' [x05], w')).
Proof.
  intros c w new w' c'.
  assert (Hrun : recv 5 c (Some 5) w = Some (Ok [x01; x02], c', w'))
    by reflexivity.
  split; [repeat split|].
  destruct (closed_after_remote_close 5 c (Some 5) w 3%nat (Ok [x01; x02])
              c' w' new eq_refl Hrun eq_refl eq_refl) as [Hclosed Hlater].
  split; [exact Hclosed|].
  exact (proj1 (Hlater [x05] None 0%nat w')).
Defined.

(** A retry finds three bytes waiting: [send] returns them, writes nothing
    and keeps the socket. *)
Lemma send_outcomes_witness :
  let c := example_client (Some 3%nat) true in
  let w := start waiting_oracle in
  let w' := Build_World waiting_oracle 1 1 1 0 0 3
              [EvRecv 3%nat 1024 [x01; x02; x03];
               EvSelect 3%nat 3000 Ready; EvTime 0] in
  send c [x05] w = (Ok (VBytes [x01; x02; x03]), c, w') /\
  (socket c = Some 3%nat /\
   closed_sockets (trace w') = closed_sockets (trace w) /\
   retrying (base c) = true /\ [x01; x02; x03] <> [] /\
   sent (trace w') = sent (trace w)).
Proof.
  intros c w w'.
  assert (Hrun : send c [x05] w = (Ok (VBytes [x01; x02; x03]), c, w'))
    by reflexivity.
  split; [exact Hrun|].
  destruct (send_outcomes c [x05] w (Ok (VBytes [x01; x02; x03])) c w'
              Hrun) as (_ & Hsock & Hclosed & _ & _ & Hbytes & _).
  destruct (Hbytes [x01; x02; x03] eq_refl) as (Hretry & Hdata & Hsent).
  auto.
Defined.

(** ** Further properties of the server example *)

Section MoreServerProperties.

Import server_sync.

Variables Datastore Identity : Type.
Variable get_certificate : string -> string.

(** X11: every server is started with the datastore and the identity of
    [args].  The TCP, UDP and TLS servers get no listen address when
    [args.port] is false (0, [None], empty) and otherwise the address made of
    [args.port] and the host ["127.0.0.1"] for UDP, [""] for TCP and TLS; the
    serial server gets [args.port] and [args.baudrate] as they are. *)
Theorem run_sync_server_arguments (args : Args Datastore Identity)
  (call : ServerCall Datastore Identity) :
  run_sync_server _ _ get_certificate args = Ok call ->
  call_context _ _ call = context _ _ args /\
  call_identity _ _ call = identity _ _ args /\
  match call_address _ _ call with
  | None =>
      call = StartSerialServer _ _ (context _ _ args) (identity _ _ args)
               (port _ _ args) (framer _ _ args) (baudrate _ _ args)
  | Some None => truthy (port _ _ args) = false
  | Some (Some (host, p)) =>
      truthy (port _ _ args) = true /\ p = port _ _ args /\
      host = (if String.eqb (comm _ _ args) "udp" then "127.0.0.1" else "")
             %string
  end.
Proof.
  unfold run_sync_server.
  destruct (String.eqb_spec (comm _ _ args) "tcp") as [Etcp|Ntcp].
  { destruct (truthy (port _ _ args)) eqn:Hport;
      intros [= <-]; cbn; rewrite ?Etcp; cbn; auto. }
  destruct (String.eqb_spec (comm _ _ args) "udp") as [Eudp|Nudp].
  { destruct (truthy (port _ _ args)) eqn:Hport;
      intros [= <-]; cbn; auto. }
  destruct (String.eqb_spec (comm _ _ args) "serial") as [Eser|Nser].
  { intros [= <-]; cbn; auto. }
  destruct (String.eqb_spec (comm _ _ args) "tls") as [Etls|Ntls];
    [|discriminate].
  destruct (truthy (port _ _ args)) eqn:Hport;
    intros [= <-]; cbn; auto.
Qed.

End MoreServerProperties.

(** With port 0 the TCP server is started without a listen address. *)
Lemma run_sync_server_arguments_witness :
  let call := server_sync.StartTcpServer unit unit tt tt None
                ModbusSocketFramer true in
  server_sync.run_sync_server unit unit (fun kind => kind)
    tcp_default_port_args = Ok call /\
  (server_sync.call_context _ _ call = tt /\
   server_sync.call_identity _ _ call = tt /\
   server_sync.truthy (VInt 0) = false).
Proof.
  intros call. split; [reflexivity|].
  exact (run_sync_server_arguments unit unit (fun kind => kind)
           tcp_default_port_args call eq_refl).
Defined.

(** The deadline is 3000: the three [select] calls of the example follow
    the readings 0, 10 and 20, and none follows the reading 4000. *)
Lemma recv_selects_in_time_witness :
  let c := example_client (Some 3%nat) false in
  let w := start slow_oracle in
  let new := [EvTime 4000; EvSelect 3%nat 2980 NotReady; EvTime 20;
              EvRecv 3%nat 3 [x03]; EvSelect 3%nat 2990 Ready; EvTime 10;
              EvRecv 3%nat 5 [x01; x02]; EvSelect 3%nat 3000 Ready;
              EvTime 0; EvSetBlocking 3%nat false] in
  let w' := Build_World slow_oracle 4 3 2 0 0 3 new in
  (socket c = Some 3%nat /\
   recv 10 c (Some 5) w = Some (Ok [x01; x02; x03], c, w') /\
   fgt (clock (oracle w) (n_time w)) (fadd 0 3000) = false) /\
  selects_in_time (fadd 0 3000) new.
Proof.
  intros c w new w'.
  assert (Hrun : recv 10 c (Some 5) w = Some (Ok [x01; x02; x03], c, w'))
    by reflexivity.
  split; [repeat split|].
  destruct (recv_selects_in_time 10 c (Some 5) w 3%nat (Ok [x01; x02; x03])
              c w' eq_refl Hrun eq_refl) as (new0 & Htr & Hsel).
  assert (new0 = new) as ->
    by (apply (app_inv_tail (trace w)); rewrite <- Htr; reflexivity).
  exact Hsel.
Defined.
